(** * VEYA industrial equipment analyzer: scoring, parsing and report logic

    A shallow embedding of the deterministic core of the analyzer
    ([config.py], [health_analyzer.py], [data_parser.py],
    [ai_classifier.py] and the monolithic [app.py]) together with the
    properties its specification states about it.

    Conventions of the embedding.
    - Python [str] is [string]; the case mappings [str.lower] and
      [str.upper] are the ASCII ones (every literal of the program and
      of the specification is ASCII).
    - Python [int] is [Z].
    - A dict whose iteration order matters ([HEALTH_PENALTIES], the
      recommendation table) is an association list in insertion order.
    - The equipment dict is a record with one optional field per key;
      [None] stands for an absent key, so [d.get(k, '')] is
      [default "" (k d)].
    - External calls (the Gemini model, [json.loads]) are inputs of the
      functions that use them; a failing call is [None]. *)

From Stdlib Require Import ZArith Lia Ascii String List Bool Permutation.
From stdpp Require Import base option gmap strings list.
Import ListNotations.

Local Open Scope Z_scope.
Local Open Scope string_scope.

(** ** Python string primitives *)

Module PyStr.

Definition code (c : ascii) : N := N_of_ascii c.

Definition between (lo hi : N) (c : ascii) : bool :=
  ((lo <=? code c) && (code c <=? hi))%N.

Definition is_upper (c : ascii) : bool := between 65 90 c.
Definition is_lower (c : ascii) : bool := between 97 122 c.
Definition is_digit (c : ascii) : bool := between 48 57 c.

(** [str.isspace] on the ASCII range: tab, LF, VT, FF, CR, the four
    separators FS GS RS US, and the space. *)
Definition is_space (c : ascii) : bool :=
  between 9 13 c || between 28 31 c || (code c =? 32)%N.

Definition lower_char (c : ascii) : ascii :=
  if is_upper c then ascii_of_N (code c + 32) else c.

Definition upper_char (c : ascii) : ascii :=
  if is_lower c then ascii_of_N (code c - 32) else c.

Fixpoint map_chars (f : ascii -> ascii) (s : string) : string :=
  match s with
  | EmptyString => EmptyString
  | String c s' => String (f c) (map_chars f s')
  end.

(** [s.lower()] and [s.upper()]. *)
Definition lower : string -> string := map_chars lower_char.
Definition upper : string -> string := map_chars upper_char.

(** [sub in s]: [sub] occurs in [s] as a contiguous substring. *)
Fixpoint str_in (sub s : string) : bool :=
  String.prefix sub s ||
  match s with
  | EmptyString => false
  | String _ s' => str_in sub s'
  end.

(** [s.lstrip()], [s.rstrip()] and [s.strip()]. *)
Fixpoint lstrip (s : string) : string :=
  match s with
  | EmptyString => EmptyString
  | String c s' => if is_space c then lstrip s' else s
  end.

Fixpoint rstrip (s : string) : string :=
  match s with
  | EmptyString => EmptyString
  | String c s' =>
      match rstrip s' with
      | EmptyString => if is_space c then EmptyString else String c EmptyString
      | r => String c r
      end
  end.

Definition strip (s : string) : string := rstrip (lstrip s).

Definition nl : ascii := ascii_of_N 10.

(** [s.split('\n')]: never empty, the pieces between line feeds. *)
Fixpoint split_lines (s : string) : list string :=
  match s with
  | EmptyString => [EmptyString]
  | String c s' =>
      if Ascii.eqb c nl then EmptyString :: split_lines s'
      else match split_lines s' with
           | [] => [String c EmptyString]
           | l :: ls => String c l :: ls
           end
  end.

(** [s.title()]: a cased character is upper-cased when it follows an
    uncased one and lower-cased when it follows a cased one. *)
Fixpoint title_from (prev_cased : bool) (s : string) : string :=
  match s with
  | EmptyString => EmptyString
  | String c s' =>
      let cased := is_upper c || is_lower c in
      String (if prev_cased then lower_char c else upper_char c)
             (title_from cased s')
  end.

Definition title : string -> string := title_from false.

(** [s.find(c)] for a one-character needle; [None] is Python's -1. *)
Fixpoint find_char (c : ascii) (s : string) : option nat :=
  match s with
  | EmptyString => None
  | String c' s' =>
      if Ascii.eqb c' c then Some O else S <$> find_char c s'
  end.

(** [s[i:]] and [s[:n]] for indices within range. *)
Fixpoint drop_chars (i : nat) (s : string) : string :=
  match i, s with
  | O, _ => s
  | S i', String _ s' => drop_chars i' s'
  | S _, EmptyString => EmptyString
  end.

Fixpoint take_chars (n : nat) (s : string) : string :=
  match n, s with
  | S n', String c s' => String c (take_chars n' s')
  | _, _ => EmptyString
  end.

(** Truthiness of a string: non-empty. *)
Definition truthy (s : string) : bool :=
  match s with EmptyString => false | _ => true end.

End PyStr.

Import PyStr.

(** ** config.py *)

Definition EQUIPMENT_CATEGORIES : list string :=
  [ "UPS / Inverter"; "Transformer"; "Stabilizer"; "Industrial PCB";
    "Meter / Gauge"; "Breaker Panel"; "Battery Packs";
    "Other Industrial Equipment" ].

Definition DAMAGE_TYPES : list string :=
  [ "burn marks"; "scorch marks"; "corrosion"; "rust";
    "broken display"; "overheating"; "loose wires";
    "water damage"; "mechanical damage"; "missing components" ].

Definition HEALTH_PENALTIES : list (string * Z) :=
  [ ("burn marks", 25); ("scorch marks", 20); ("corrosion", 15); ("rust", 15);
    ("broken display", 20); ("overheating", 30); ("loose wires", 10);
    ("water damage", 40); ("mechanical damage", 20); ("missing components", 25) ].

(** ** The equipment dict *)

Record EquipmentData : Type := mkEquipmentData {
  equipment_type : option string;
  manufacturer : option string;
  model_number : option string;
  serial_number : option string;
  specifications : option (gmap string string);
  condition : option string;
  operational_status : option string;
  detected_damages : option (list string);
  extracted_text : option string;
  confidence : option string;
  estimated_age : option string
}.

(** [l.append(x)] *)
Definition list_append {A : Type} (l : list A) (x : A) : list A :=
  (l ++ [x])%list.

(** [d.get(k, '')] *)
Definition get_str (field : option string) : string := default "" field.

(** ** health_analyzer.py: calculate_health_score *)

(** The inner loop over [penalties.items()] for one damage label: the
    first key that is a case-insensitive substring of the label is
    subtracted, and the loop breaks. *)
Fixpoint apply_first_penalty (penalties : list (string * Z))
                             (damage : string) (score : Z) : Z :=
  match penalties with
  | [] => score
  | (damage_type, penalty) :: rest =>
      if str_in (lower damage_type) (lower damage)
      then score - penalty
      else apply_first_penalty rest damage score
  end.

(** The outer loop [for damage in detected_damages]. *)
Definition deduct_damages (penalties : list (string * Z))
                          (damages : list string) (score : Z) : Z :=
  fold_left (fun sc damage => apply_first_penalty penalties damage sc)
            damages score.

Definition calculate_health_score (equipment_data : EquipmentData)
                                  (damages : list string) : Z :=
  let score := 100 in
  let score := deduct_damages HEALTH_PENALTIES damages score in
  let condition := lower (get_str (condition equipment_data)) in
  let score :=
    if str_in "poor" condition then score - 20
    else if str_in "fair" condition then score - 10
    else score in
  let operational := lower (get_str (operational_status equipment_data)) in
  let score :=
    if str_in "non-functional" operational || str_in "malfunctioning" operational
    then score - 30
    else if str_in "limited" operational || str_in "intermittent" operational
    then score - 15
    else score in
  let age := get_str (estimated_age equipment_data) in
  let score :=
    if str_in "old" (lower age) && str_in "> 15" age then score - 10
    else score in
  Z.max 0 (Z.min 100 score).

(** ** A backtracking matcher for the patterns of data_parser.py

    The patterns of the fallback parser use literals, character classes,
    greedy [*], [+] and [?], non-capturing groups and one capturing
    group.  Repetition is only ever applied to a single character class,
    which keeps the matcher structurally recursive.  Alternatives are
    tried in Python's order (greedy repetition takes the longest run
    first and gives characters back; [?] tries the optional part first),
    and [search] scans start positions from left to right. *)

Module Re.

Inductive regex : Type :=
| Eps
| Chr (p : ascii -> bool)
| Cat (r1 r2 : regex)
| Alt (r1 r2 : regex)
| Star (p : ascii -> bool)
| Group (r : regex).

Definition Plus (p : ascii -> bool) : regex := Cat (Chr p) (Star p).
Definition Opt (r : regex) : regex := Alt r Eps.

(** A literal character under [re.IGNORECASE]. *)
Definition Lit (c : ascii) : regex :=
  Chr (fun x => Ascii.eqb (lower_char x) (lower_char c)).

Fixpoint Word (s : string) : regex :=
  match s with
  | EmptyString => Eps
  | String c s' => Cat (Lit c) (Word s')
  end.

(** A character class under [re.IGNORECASE]: a character matches when
    either of its cases is in the class. *)
Definition icase (p : ascii -> bool) : ascii -> bool :=
  fun c => p c || p (upper_char c) || p (lower_char c).

Section Matcher.
Context {A : Type}.

Fixpoint star (p : ascii -> bool) (s : string)
              (k : string -> option A) : option A :=
  match s with
  | EmptyString => k EmptyString
  | String c s' =>
      if p c
      then match star p s' k with
           | Some a => Some a
           | None => k s
           end
      else k s
  end.

(** [rmatch r s g k]: match [r] at the head of [s]; [g] is the text
    of group 1 so far, [k] continues with the rest of the input. *)
Fixpoint rmatch (r : regex) (s : string) (g : option string)
                (k : string -> option string -> option A) : option A :=
  match r with
  | Eps => k s g
  | Chr p =>
      match s with
      | String c s' => if p c then k s' g else None
      | EmptyString => None
      end
  | Cat r1 r2 => rmatch r1 s g (fun s' g' => rmatch r2 s' g' k)
  | Alt r1 r2 =>
      match rmatch r1 s g k with
      | Some a => Some a
      | None => rmatch r2 s g k
      end
  | Star p => star p s (fun s' => k s' g)
  | Group r1 =>
      rmatch r1 s g
        (fun s' _ =>
           k s' (Some (take_chars (String.length s - String.length s') s)))
  end.
End Matcher.

(** [re.search(pattern, s, re.IGNORECASE)] followed by [.group(1)]:
    [None] when there is no match, [Some g] with [g] the text of
    group 1 ([None] when the group did not take part). *)
Fixpoint search (r : regex) (s : string) : option (option string) :=
  match rmatch r s None (fun _ g => Some g) with
  | Some g => Some g
  | None =>
      match s with
      | EmptyString => None
      | String _ s' => search r s'
      end
  end.

(** The classes used by the patterns. *)
Definition cls_space : ascii -> bool := is_space.                 (* \s *)
Definition cls_digit : ascii -> bool := is_digit.                 (* \d *)
Definition cls_hash_colon (c : ascii) : bool :=                   (* [#:] *)
  (code c =? 35)%N || (code c =? 58)%N.
Definition cls_ident : ascii -> bool :=                           (* [A-Z0-9\-] *)
  icase (fun c => is_upper c || is_digit c || (code c =? 45)%N).

Fixpoint Seq (rs : list regex) : regex :=
  match rs with
  | [] => Eps
  | r :: rs' => Cat r (Seq rs')
  end.

End Re.

(** ** data_parser.py: basic_parse_equipment *)

Definition set_manufacturer (v : option string) (d : EquipmentData) :=
  mkEquipmentData (equipment_type d) v (model_number d) (serial_number d)
    (specifications d) (condition d) (operational_status d)
    (detected_damages d) (extracted_text d) (confidence d) (estimated_age d).

Definition set_model_number (v : option string) (d : EquipmentData) :=
  mkEquipmentData (equipment_type d) (manufacturer d) v (serial_number d)
    (specifications d) (condition d) (operational_status d)
    (detected_damages d) (extracted_text d) (confidence d) (estimated_age d).

Definition set_serial_number (v : option string) (d : EquipmentData) :=
  mkEquipmentData (equipment_type d) (manufacturer d) (model_number d) v
    (specifications d) (condition d) (operational_status d)
    (detected_damages d) (extracted_text d) (confidence d) (estimated_age d).

Definition set_specifications (v : option (gmap string string))
                              (d : EquipmentData) :=
  mkEquipmentData (equipment_type d) (manufacturer d) (model_number d)
    (serial_number d) v (condition d) (operational_status d)
    (detected_damages d) (extracted_text d) (confidence d) (estimated_age d).

Definition set_detected_damages (v : option (list string))
                                (d : EquipmentData) :=
  mkEquipmentData (equipment_type d) (manufacturer d) (model_number d)
    (serial_number d) (specifications d) (condition d) (operational_status d)
    v (extracted_text d) (confidence d) (estimated_age d).

(** The three assignments of a keyword bucket. *)
Definition set_assessment (cond oper conf : string) (d : EquipmentData) :=
  mkEquipmentData (equipment_type d) (manufacturer d) (model_number d)
    (serial_number d) (specifications d) (Some cond) (Some oper)
    (detected_damages d) (extracted_text d) (Some conf) (estimated_age d).

Definition manufacturers : list string :=
  [ "SIEMENS"; "ABB"; "GE"; "ROCKWELL"; "HONEYWELL"; "SCHNEIDER";
    "MITSUBISHI"; "FUJI"; "DELTA"; "TOSHIBA" ].

Import Re.

(** [MODEL\s*[#:]*\s*([A-Z0-9\-]+)], [#([A-Z0-9\-]+)], [MDL\s*([A-Z0-9\-]+)] *)
Definition model_patterns : list regex :=
  [ Seq [Word "MODEL"; Star cls_space; Star cls_hash_colon; Star cls_space;
         Group (Plus cls_ident)];
    Seq [Word "#"; Group (Plus cls_ident)];
    Seq [Word "MDL"; Star cls_space; Group (Plus cls_ident)] ].

(** [SERIAL\s*[#:]*\s*([A-Z0-9\-]+)], [SN[#:]*\s*([A-Z0-9\-]+)],
    [S/N[#:]*\s*([A-Z0-9\-]+)] *)
Definition serial_patterns : list regex :=
  [ Seq [Word "SERIAL"; Star cls_space; Star cls_hash_colon; Star cls_space;
         Group (Plus cls_ident)];
    Seq [Word "SN"; Star cls_hash_colon; Star cls_space; Group (Plus cls_ident)];
    Seq [Word "S/N"; Star cls_hash_colon; Star cls_space;
         Group (Plus cls_ident)] ].

(** [(\d+(?:\.\d+)?)]: the number captured by the voltage patterns. *)
Definition number_group : regex :=
  Group (Cat (Plus cls_digit) (Opt (Cat (Word ".") (Plus cls_digit)))).

(** [(\d+(?:\.\d+)?)\s*V(?:OLTS?)?], [...\s*VAC], [...\s*VDC] *)
Definition voltage_patterns : list regex :=
  [ Seq [number_group; Star cls_space; Word "V";
         Opt (Cat (Word "OLT") (Opt (Word "S")))];
    Seq [number_group; Star cls_space; Word "VAC"];
    Seq [number_group; Star cls_space; Word "VDC"] ].

(** Truthiness of a dict value that is a string or [None]. *)
Definition field_truthy (field : option string) : bool :=
  match field with Some s => truthy s | None => false end.

(** [for manufacturer in manufacturers: if manufacturer in line and not
    equipment_data["manufacturer"]: ...; break] *)
Fixpoint scan_manufacturers (ms : list string) (line : string)
                            (d : EquipmentData) : EquipmentData :=
  match ms with
  | [] => d
  | m :: ms' =>
      if str_in m line && negb (field_truthy (manufacturer d))
      then set_manufacturer (Some (title m)) d
      else scan_manufacturers ms' line d
  end.

(** [for pattern in patterns: match = re.search(...); if match and not
    <field set>: <assign match.group(1)>; break], generic in the field. *)
Fixpoint scan_patterns (ps : list regex) (line : string)
                       (is_set : EquipmentData -> bool)
                       (assign : option string -> EquipmentData -> EquipmentData)
                       (d : EquipmentData) : EquipmentData :=
  match ps with
  | [] => d
  | p :: ps' =>
      match search p line with
      | Some g =>
          if negb (is_set d) then assign g d
          else scan_patterns ps' line is_set assign d
      | None => scan_patterns ps' line is_set assign d
      end
  end.

Definition specs_of (d : EquipmentData) : gmap string string :=
  default ∅ (specifications d).

(** ['voltage' in equipment_data["specifications"]] *)
Definition has_voltage (d : EquipmentData) : bool :=
  bool_decide (is_Some (specs_of d !! "voltage")).

(** [equipment_data["specifications"]["voltage"] = match.group(1) + 'V'] *)
Definition assign_voltage (g : option string) (d : EquipmentData) :=
  set_specifications
    (Some (<["voltage" := (default "" g ++ "V")%string]> (specs_of d))) d.

(** The body of [for line in lines]. *)
Definition process_line (line : string) (d : EquipmentData) : EquipmentData :=
  let line := upper line in
  let d := scan_manufacturers manufacturers line d in
  let d := scan_patterns model_patterns line
             (fun d => field_truthy (model_number d)) set_model_number d in
  let d := scan_patterns serial_patterns line
             (fun d => field_truthy (serial_number d)) set_serial_number d in
  scan_patterns voltage_patterns line has_voltage assign_voltage d.

(** [any(word in text for word in words)] *)
Definition any_in (words : list string) (text : string) : bool :=
  existsb (fun w => str_in w text) words.

Definition basic_parse_equipment (ocr_text : string) : EquipmentData :=
  let equipment_data :=
    {| equipment_type := Some "Unknown";
       manufacturer := Some "";
       model_number := Some "";
       serial_number := Some "";
       specifications := Some ∅;
       condition := Some "Unknown - Unable to assess without AI";
       operational_status := Some "Unknown - Unable to assess without AI";
       detected_damages := Some [];
       extracted_text := Some ocr_text;
       confidence := Some "low";
       estimated_age := None |} in
  let lines :=
    map strip (filter (fun line => truthy (strip line) = true)
                      (split_lines ocr_text)) in
  let equipment_data :=
    fold_left (fun d line => process_line line d) lines equipment_data in
  let ocr_lower := lower ocr_text in
  if any_in ["new"; "unused"; "never used"; "factory"; "boxed"] ocr_lower then
    set_assessment "Good - Appears new/unused"
                   "Fully functional - New equipment" "medium" equipment_data
  else if any_in ["used"; "service"; "maintenance required"] ocr_lower then
    set_assessment "Fair - Shows signs of use"
                   "Limited functionality - May need maintenance" "medium"
                   equipment_data
  else if any_in ["rust"; "corrosion"; "damaged"; "broken"; "faulty"] ocr_lower then
    set_assessment "Poor - Visible damage/wear"
                   "Non-functional - Requires repair" "medium" equipment_data
  else if str_in "voltage" ocr_lower || str_in "current" ocr_lower
          || str_in "power" ocr_lower then
    set_assessment "Good - Specifications readable"
                   "Functional - Based on available specs" "medium"
                   equipment_data
  else equipment_data.

(** ** data_parser.py: parse_equipment_data

    The two external collaborators are inputs: [response] is the text of
    the model's answer ([None] when creating the model, generating the
    content or reading [response.text] raises), and [json_loads] is
    [json.loads] decoding an object into the equipment dict ([None] when
    it raises). *)

Definition lbrace : ascii := ascii_of_N 123.
Definition rbrace : ascii := ascii_of_N 125.

(** The brace-counting loop over [enumerate(response_text[start:], start)];
    [Some end] when the loop breaks, [None] when it runs to the end of
    the text (and [end] keeps its initial value [start]). *)
Fixpoint find_json_end (s : string) (i : nat) (brace_count : Z) : option nat :=
  match s with
  | EmptyString => None
  | String char s' =>
      if Ascii.eqb char lbrace then find_json_end s' (S i) (brace_count + 1)
      else if Ascii.eqb char rbrace then
        let brace_count := brace_count - 1 in
        if (brace_count =? 0)%Z then Some (S i)
        else find_json_end s' (S i) brace_count
      else find_json_end s' (S i) brace_count
  end.

(** [response_text[start:end]] for the first balanced object. *)
Definition extract_json_str (response_text : string) : option string :=
  match find_char lbrace response_text, find_char rbrace response_text with
  | Some start, Some _ =>
      let end_ := default start
                    (find_json_end (drop_chars start response_text) start 0) in
      Some (take_chars (end_ - start)%nat (drop_chars start response_text))
  | _, _ => None
  end.

Section Parser.
Variable json_loads : string -> option EquipmentData.

Definition parse_equipment_data (response : option string)
    (ocr_text equipment_type : string) (damages : list string)
    : EquipmentData :=
  match response with
  | None => basic_parse_equipment ocr_text
  | Some text =>
      let response_text := strip text in
      match extract_json_str response_text with
      | Some json_str =>
          match json_loads json_str with
          | Some parsed_data =>
              set_detected_damages (Some damages) parsed_data
          | None => basic_parse_equipment ocr_text
          end
      | None => basic_parse_equipment ocr_text
      end
  end.
End Parser.

(** ** ai_classifier.py *)

Definition OTHER : string := "Other Industrial Equipment".

(** [response] is the text of the model's answer, [None] when any step
    of the call raises. *)
Definition classify_equipment_type (response : option string) : string :=
  match response with
  | None => OTHER
  | Some text =>
      let equipment_type := hd "" (split_lines (strip text)) in
      if decide (equipment_type ∈ EQUIPMENT_CATEGORIES)
      then equipment_type
      else OTHER
  end.

Record ComplianceChecks : Type := mkComplianceChecks {
  iso_certified : bool;
  ce_marked : bool;
  rohs_compliant : bool;
  bis_certified : bool;
  ul_listed : bool;
  certifications_found : list string;
  potential_issues : list string
}.

Definition analyze_compliance (image_path ocr_text equipment_type : string)
    : ComplianceChecks :=
  let ocr_upper := upper ocr_text in
  let iso := str_in "ISO" ocr_upper in
  let found := if iso then ["ISO"] else [] in
  let ce := str_in "CE" ocr_upper in
  let found := if ce then list_append found "CE" else found in
  let rohs := str_in "ROHS" ocr_upper || str_in "ROHS" ocr_upper in
  let found := if rohs then list_append found "RoHS" else found in
  let bis := str_in "BIS" ocr_upper in
  let found := if bis then list_append found "BIS" else found in
  let ul := str_in "UL" ocr_upper in
  let found := if ul then list_append found "UL" else found in
  {| iso_certified := iso; ce_marked := ce; rohs_compliant := rohs;
     bis_certified := bis; ul_listed := ul;
     certifications_found := found; potential_issues := [] |}.

(** ** app.py: the monolithic variant

    [app.py] carries its own copies of the classifier and of the scorer. *)

Module App.

(** The first line of the answer is returned as it is, unless it is
    empty. *)
Definition classify_equipment_type (response : option string) : string :=
  match response with
  | None => OTHER
  | Some text =>
      let equipment_type := hd "" (split_lines (strip text)) in
      if truthy equipment_type then equipment_type else OTHER
  end.

Definition damage_penalties : list (string * Z) :=
  [ ("burn marks", 25); ("scorch marks", 20); ("corrosion", 15); ("rust", 15);
    ("broken display", 20); ("overheating", 30); ("loose wires", 10);
    ("water damage", 40); ("mechanical damage", 20);
    ("missing components", 25) ].

Definition calculate_health_score (equipment_data : EquipmentData)
                                  (damages : list string) : Z :=
  let score := 100 in
  let score := deduct_damages damage_penalties damages score in
  let condition := lower (get_str (condition equipment_data)) in
  let score :=
    if str_in "poor" condition then score - 20
    else if str_in "fair" condition then score - 10
    else score in
  let operational := lower (get_str (operational_status equipment_data)) in
  let score :=
    if str_in "non-functional" operational then score - 30
    else if str_in "limited" operational then score - 15
    else score in
  Z.max 0 score.

End App.

(** ** health_analyzer.py: generate_health_report *)

Record Breakdown : Type := mkBreakdown {
  damage_impact : Z;
  condition_assessment : string;
  operational_impact : string
}.

Record HealthReport : Type := mkHealthReport {
  overall_health_score : Z;
  status : string;
  risk_level : string;
  recommended_action : string;
  breakdown : Breakdown;
  specific_issues : list string;
  recommendations : gset string;
  next_maintenance_date : string;
  estimated_lifespan_remaining : string
}.

Definition damage_recommendations : list (string * string) :=
  [ ("burn marks", "Replace damaged components and inspect electrical connections");
    ("rust", "Apply anti-corrosion treatment and check for moisture ingress");
    ("loose wires", "Tighten all electrical connections and secure wire harnesses");
    ("overheating", "Clean cooling surfaces and check ventilation");
    ("broken display", "Replace display unit if LCD/LED indicators are critical") ].

(** The inner loop over [damage_recommendations.items()]: append the
    first matching recommendation and break. *)
Fixpoint append_first_recommendation (table : list (string * string))
    (damage : string) (recs : list string) : list string :=
  match table with
  | [] => recs
  | (damage_type, recommendation) :: rest =>
      if str_in (lower damage_type) (lower damage)
      then list_append recs recommendation
      else append_first_recommendation rest damage recs
  end.

(** [list(set(recommendations))]: the order of the result is left open
    by Python, so the result is kept as the set itself. *)
Definition _generate_specific_recommendations (equipment_data : EquipmentData)
    (health_score : Z) (damages : list string) : gset string :=
  let recs : list string := [] in
  let equipment_type := lower (get_str (equipment_type equipment_data)) in
  let recs :=
    if str_in "ups" equipment_type || str_in "inverter" equipment_type
    then list_append (list_append recs "Schedule battery capacity test")
                     "Check cooling fan operation"
    else recs in
  let recs :=
    if str_in "transformer" equipment_type
    then list_append (list_append recs "Check insulation resistance")
                     "Verify oil levels and quality"
    else recs in
  let recs :=
    if str_in "battery" (lower equipment_type)
    then list_append (list_append recs "Check individual cell voltages")
                     "Test specific gravity of electrolyte"
    else recs in
  let recs :=
    fold_left (fun rs damage =>
                 append_first_recommendation damage_recommendations damage rs)
              damages recs in
  let recs :=
    if (health_score <? 60)%Z
    then "URGENT: Schedule professional technician inspection" :: recs
    else if (health_score <? 80)%Z
    then "Schedule preventive maintenance within 30 days" :: recs
    else recs in
  list_to_set recs.

Definition _estimate_maintenance_schedule (health_score : Z) : string :=
  if (health_score <? 40)%Z then "Immediate - Within 1 week"
  else if (health_score <? 60)%Z then "Urgent - Within 2 weeks"
  else if (health_score <? 80)%Z then "Scheduled - Within 1 month"
  else "Routine - Within 6 months".

Definition _estimate_remaining_lifespan (equipment_data : EquipmentData)
                                        (health_score : Z) : string :=
  if (health_score >=? 80)%Z then "5+ years (excellent condition)"
  else if (health_score >=? 60)%Z then "2-5 years (good condition)"
  else if (health_score >=? 40)%Z then "1-2 years (needs attention)"
  else if (health_score >=? 20)%Z then "6-12 months (critical)"
  else "< 6 months (replacement recommended)".

(** The status, risk level and recommended action chosen by the
    [if]/[elif] chain at the head of [generate_health_report]. *)
Definition status_tier (health_score : Z) : string * string * string :=
  if (health_score >=? 80)%Z then
    ("Excellent", "Low", "Continue routine maintenance")
  else if (health_score >=? 60)%Z then
    ("Good", "Low-Medium", "Schedule routine inspection")
  else if (health_score >=? 40)%Z then
    ("Fair", "Medium", "Schedule maintenance soon")
  else if (health_score >=? 20)%Z then
    ("Poor", "High", "Immediate attention required")
  else
    ("Critical", "Critical", "Immediate shutdown and inspection").

Definition generate_health_report (equipment_data : EquipmentData)
    (health_score : Z) (damages : list string) : HealthReport :=
  let '(overall_status, risk, action) := status_tier health_score in
  {| overall_health_score := health_score;
     status := overall_status;
     risk_level := risk;
     recommended_action := action;
     breakdown :=
       {| damage_impact := Z.of_nat (List.length damages) * 10;
          condition_assessment :=
            if bool_decide (is_Some (condition equipment_data))
            then "Included in score" else "Not assessed";
          operational_impact :=
            if bool_decide (is_Some (operational_status equipment_data))
            then "Included in score" else "Not assessed" |};
     specific_issues := damages;
     recommendations :=
       _generate_specific_recommendations equipment_data health_score damages;
     next_maintenance_date := _estimate_maintenance_schedule health_score;
     estimated_lifespan_remaining :=
       _estimate_remaining_lifespan equipment_data health_score |}.

(** ** ai_classifier.py: detect_equipment_age *)

Module Age.
Record estimate : Type := mk {
  estimated_age : string;
  confidence : string;
  indicators : list string
}.
End Age.

Definition age_indicators : list (string * list string) :=
  [ ("modern_design", ["LED"; "DISPLAY"; "DIGITAL"; "MICROCONTROLLER"]);
    ("mid_age", ["LCD"; "ANALOG"; "TRANSISTOR"]);
    ("older_design", ["VACUUM TUBE"; "MECHANICAL DIALS"; "OUTDATED LABELS"]) ].

(** [for indicator in indicators: if indicator in ocr_upper: ...; break] *)
Fixpoint hint_found (indicators : list string) (ocr_upper : string) : bool :=
  match indicators with
  | [] => false
  | indicator :: rest =>
      if str_in indicator ocr_upper then true else hint_found rest ocr_upper
  end.

(** The loop over [age_indicators.items()] that fills [age_hints]. *)
Definition collect_age_hints (table : list (string * list string))
                             (ocr_upper : string) : list string :=
  fold_left (fun hints entry =>
               if hint_found (snd entry) ocr_upper
               then list_append hints (fst entry) else hints)
            table [].

(** [age_indicators[key]] *)
Fixpoint indicators_of (table : list (string * list string))
                       (key : string) : list string :=
  match table with
  | [] => []
  | (k, v) :: rest => if String.eqb k key then v else indicators_of rest key
  end.

(** [[item for item in age_indicators[key] if item in ocr_upper]] *)
Definition present_indicators (key ocr_upper : string) : list string :=
  List.filter (fun item => str_in item ocr_upper)
              (indicators_of age_indicators key).

Definition detect_equipment_age (image_path ocr_text : string) : Age.estimate :=
  let ocr_upper := upper ocr_text in
  let age_hints := collect_age_hints age_indicators ocr_upper in
  if bool_decide ("modern_design" ∈ age_hints) then
    Age.mk "Modern (< 5 years)" "medium"
           (present_indicators "modern_design" ocr_upper)
  else if bool_decide ("mid_age" ∈ age_hints) then
    Age.mk "Intermediate (5-15 years)" "low"
           (present_indicators "mid_age" ocr_upper)
  else if bool_decide ("older_design" ∈ age_hints) then
    Age.mk "Old (> 15 years)" "medium"
           (present_indicators "older_design" ocr_upper)
  else Age.mk "Unknown" "none" [].

(** ** ai_classifier.py: detect_damage_and_faults

    [response] is the text of the model's answer ([None] when the call
    raises) and [json_loads_list] is [json.loads] restricted to answers
    that decode to a list ([None] when it raises or yields something
    else); both failures end in the empty list. *)

Definition lbracket : ascii := ascii_of_N 91.
Definition rbracket : ascii := ascii_of_N 93.

(** [response_text[start:end]] with [start = find('[')] and
    [end = find(']', start) + 1]; a failed second [find] gives
    [end = 0] and so the empty slice. *)
Definition extract_json_array (response_text : string) : option string :=
  match find_char lbracket response_text, find_char rbracket response_text with
  | Some start, Some _ =>
      let tail := drop_chars start response_text in
      match find_char rbracket tail with
      | Some offset => Some (take_chars (S offset) tail)
      | None => Some EmptyString
      end
  | _, _ => None
  end.

Section DamageDetector.
Variable json_loads_list : string -> option (list string).

Definition detect_damage_and_faults (response : option string) : list string :=
  match response with
  | None => []
  | Some text =>
      match extract_json_array (strip text) with
      | Some json_str => default [] (json_loads_list json_str)
      | None => []
      end
  end.
End DamageDetector.

(** ** data_parser.py: generate_recommendations *)

Record Recommendations : Type := mkRecommendations {
  service_actions : list string;
  spare_parts : list string;
  risk_assessment : string;
  maintenance_schedule : string;
  cost_estimate : string
}.

Definition generate_recommendations (equipment_data : EquipmentData)
    (health_score : Z) (damages : list string) : Recommendations :=
  let actions : list string := [] in
  let risk := "Low" in
  let '(actions, risk) :=
    if bool_decide ("burn marks" ∈ damages)
       || bool_decide ("overheating" ∈ damages)
    then (list_append
            (list_append actions "Immediate electrical inspection required")
            "Replace damaged components", "High")
    else (actions, risk) in
  let '(schedule, actions, risk) :=
    if (health_score <? 30)%Z then
      ("Immediate attention required",
       list_append actions "Complete system overhaul", "Critical")
    else if (health_score <? 60)%Z then
      ("Schedule within 1 week",
       list_append actions "Repair identified damages", "High")
    else if (health_score <? 80)%Z then
      ("Schedule within 1 month",
       list_append actions "Routine inspection and cleaning", "Medium")
    else
      ("Schedule within 6 months",
       list_append actions "Routine preventive maintenance", "Low") in
  {| service_actions := actions; spare_parts := [];
     risk_assessment := risk; maintenance_schedule := schedule;
     cost_estimate := "N/A" |}.

(** ** health_analyzer.py: compare_equipment_health *)

(** [sorted(equipment_list, key=score, reverse=True)]: a stable sort by
    descending score, as an insertion sort that puts an element in
    front of the first one whose score is not larger. *)
Fixpoint insert_by_score (x : HealthReport) (l : list HealthReport)
    : list HealthReport :=
  match l with
  | [] => [x]
  | y :: l' =>
      if (overall_health_score x <? overall_health_score y)%Z
      then y :: insert_by_score x l'
      else x :: l
  end.

Definition sorted_by_score (l : list HealthReport) : list HealthReport :=
  fold_right insert_by_score [] l.

(** [sum(1 for eq in equipment_list if p(eq))] *)
Definition count_where (p : Z -> bool) (l : list HealthReport) : Z :=
  Z.of_nat (List.length (List.filter (fun eq => p (overall_health_score eq)) l)).

Definition sum_scores (l : list HealthReport) : Z :=
  fold_right (fun eq acc => overall_health_score eq + acc) 0 l.

(** [average_score] holds the dividend and the divisor of the true
    division [sum(...) / len(...)], whose result Python rounds to a
    float. *)
Record ComparisonSummary : Type := mkComparisonSummary {
  healthy_count : Z;
  needs_attention_count : Z;
  critical_count : Z;
  average_score : Z * Z
}.

Record Comparison : Type := mkComparison {
  ranking : list HealthReport;
  summary : ComparisonSummary
}.

(** [None] is the empty dict returned for an empty list. *)
Definition compare_equipment_health (equipment_list : list HealthReport)
    : option Comparison :=
  match equipment_list with
  | [] => None
  | _ =>
      Some {| ranking := sorted_by_score equipment_list;
              summary :=
                {| healthy_count := count_where (fun s => (s >=? 80)%Z)
                                                equipment_list;
                   needs_attention_count :=
                     count_where (fun s => (40 <=? s)%Z && (s <? 80)%Z)
                                 equipment_list;
                   critical_count := count_where (fun s => (s <? 40)%Z)
                                                 equipment_list;
                   average_score :=
                     (sum_scores equipment_list,
                      Z.of_nat (List.length equipment_list)) |} |}
  end.

(** ** data_parser.py: extract_additional_specs

    The temperature pattern has two capturing groups, so the matcher is
    repeated here with numbered groups; everything else is as in [Re].
    [group] is [match.group(n)], which raises [IndexError] when the
    pattern has fewer than [n] groups.  The temperature pattern and its
    result hold the degree sign, read here as the one character of
    code 176. *)

Module ReN.

Inductive regex : Type :=
| Eps
| Chr (p : ascii -> bool)
| Cat (r1 r2 : regex)
| Alt (r1 r2 : regex)
| Star (p : ascii -> bool)
| Group (n : nat) (r : regex).

Definition Plus (p : ascii -> bool) : regex := Cat (Chr p) (Star p).
Definition Opt (r : regex) : regex := Alt r Eps.
Definition Lit (c : ascii) : regex :=
  Chr (fun x => Ascii.eqb (lower_char x) (lower_char c)).

Fixpoint Word (s : string) : regex :=
  match s with
  | EmptyString => Eps
  | String c s' => Cat (Lit c) (Word s')
  end.

Fixpoint Seq (rs : list regex) : regex :=
  match rs with
  | [] => Eps
  | r :: rs' => Cat r (Seq rs')
  end.

(** The text captured by each group so far. *)
Definition captures : Type := nat -> option string.

Definition no_captures : captures := fun _ => None.

Definition capture (n : nat) (text : string) (g : captures) : captures :=
  fun m => if Nat.eqb m n then Some text else g m.

Fixpoint rmatch {A : Type} (r : regex) (s : string) (g : captures)
                (k : string -> captures -> option A) : option A :=
  match r with
  | Eps => k s g
  | Chr p =>
      match s with
      | String c s' => if p c then k s' g else None
      | EmptyString => None
      end
  | Cat r1 r2 => rmatch r1 s g (fun s' g' => rmatch r2 s' g' k)
  | Alt r1 r2 =>
      match rmatch r1 s g k with
      | Some a => Some a
      | None => rmatch r2 s g k
      end
  | Star p => Re.star p s (fun s' => k s' g)
  | Group n r1 =>
      rmatch r1 s g
        (fun s' g' =>
           k s' (capture n (take_chars (String.length s - String.length s') s)
                         g'))
  end.

(** [re.search(pattern, s, re.IGNORECASE)] *)
Fixpoint search (r : regex) (s : string) : option captures :=
  match rmatch r s no_captures (fun _ g => Some g) with
  | Some g => Some g
  | None =>
      match s with
      | EmptyString => None
      | String _ s' => search r s'
      end
  end.

(** Number of capturing groups of a pattern. *)
Fixpoint groups (r : regex) : nat :=
  match r with
  | Eps | Chr _ | Star _ => O
  | Cat r1 r2 | Alt r1 r2 => (groups r1 + groups r2)%nat
  | Group _ r1 => S (groups r1)
  end.

(** [match.group(n)]: [None] is the [IndexError]; the text is empty for
    a group that took no part in the match. *)
Definition group (r : regex) (m : captures) (n : nat) : option string :=
  if (n <=? groups r)%nat then Some (default "" (m n)) else None.

End ReN.

(** [(\d+(?:\.\d+)?)] *)
Definition spec_number : ReN.regex :=
  ReN.Group 1 (ReN.Cat (ReN.Plus Re.cls_digit)
                 (ReN.Opt (ReN.Cat (ReN.Word ".") (ReN.Plus Re.cls_digit)))).

(** [(\d+(?:\.\d+)?)\s*A(?:MPS?)?] *)
Definition current_pattern : ReN.regex :=
  ReN.Seq [spec_number; ReN.Star Re.cls_space; ReN.Word "A";
           ReN.Opt (ReN.Cat (ReN.Word "MP") (ReN.Opt (ReN.Word "S")))].

(** [(\d+(?:\.\d+)?)\s*H(?:Z)?] *)
Definition frequency_pattern : ReN.regex :=
  ReN.Seq [spec_number; ReN.Star Re.cls_space; ReN.Word "H";
           ReN.Opt (ReN.Word "Z")].

(** The degree sign, character 176. *)
Definition degree : ascii := ascii_of_N 176.

(** [[-~]] *)
Definition cls_dash_tilde (c : ascii) : bool :=
  (code c =? 45)%N || (code c =? 126)%N.

(** [(-?\d+)] with the given group number *)
Definition signed_integer (n : nat) : ReN.regex :=
  ReN.Group n (ReN.Cat (ReN.Opt (ReN.Word "-")) (ReN.Plus Re.cls_digit)).

(** [(-?\d+)\s*(?:to|[-~])\s*(-?\d+)\s*[°]?C] *)
Definition temperature_pattern : ReN.regex :=
  ReN.Seq [signed_integer 1; ReN.Star Re.cls_space;
           ReN.Alt (ReN.Word "to") (ReN.Chr cls_dash_tilde);
           ReN.Star Re.cls_space; signed_integer 2; ReN.Star Re.cls_space;
           ReN.Opt (ReN.Chr (fun c => Ascii.eqb c degree)); ReN.Word "C"].

(** [(\d+(?:\.\d+)?)\s*(?:W|KW|MW)(?:ATTS?)?] *)
Definition power_pattern : ReN.regex :=
  ReN.Seq [spec_number; ReN.Star Re.cls_space;
           ReN.Alt (ReN.Word "W") (ReN.Alt (ReN.Word "KW") (ReN.Word "MW"));
           ReN.Opt (ReN.Cat (ReN.Word "ATT") (ReN.Opt (ReN.Word "S")))].

(** The result is [None] when the function raises. *)
Definition extract_additional_specs (ocr_text : string)
    : option (gmap string string) :=
  let specs : gmap string string := ∅ in
  let specs :=
    match ReN.search current_pattern ocr_text with
    | Some current_match =>
        match ReN.group current_pattern current_match 1 with
        | Some g1 => Some (<["current" := g1 ++ "A"]> specs)
        | None => None
        end
    | None => Some specs
    end in
  let specs :=
    match specs, ReN.search frequency_pattern ocr_text with
    | Some specs, Some freq_match =>
        match ReN.group frequency_pattern freq_match 1 with
        | Some g1 => Some (<["frequency" := g1 ++ "Hz"]> specs)
        | None => None
        end
    | _, _ => specs
    end in
  let specs :=
    match specs, ReN.search temperature_pattern ocr_text with
    | Some specs, Some temp_match =>
        match ReN.group temperature_pattern temp_match 1,
              ReN.group temperature_pattern temp_match 2 with
        | Some g1, Some g2 =>
            Some (<["temperature_range" :=
                      g1 ++ String degree "C to " ++ g2 ++ String degree "C"]>
                    specs)
        | _, _ => None
        end
    | _, _ => specs
    end in
  match specs, ReN.search power_pattern ocr_text with
  | Some specs, Some power_match =>
      match ReN.group power_pattern power_match 1,
            ReN.group power_pattern power_match 2 with
      | Some value, Some unit =>
          Some (<["power_rating" := value ++ upper unit]> specs)
      | _, _ => None
      end
  | _, _ => specs
  end.

(** * Definitions used to state the properties *)

(** The penalty one label incurs: the weight of the first table entry
    whose key occurs in the label, zero when there is none. *)
Fixpoint penalty_of (penalties : list (string * Z)) (damage : string) : Z :=
  match penalties with
  | [] => 0
  | (damage_type, penalty) :: rest =>
      if str_in (lower damage_type) (lower damage) then penalty
      else penalty_of rest damage
  end.

Definition total_penalty (penalties : list (string * Z))
                         (damages : list string) : Z :=
  fold_right (fun damage acc => penalty_of penalties damage + acc) 0 damages.

Definition weights_in_range (penalties : list (string * Z)) : Prop :=
  Forall (fun kp => 0 <= snd kp <= 100) penalties.

(** Every key of the penalty table, in table order. *)
Definition penalty_keys : list string := map fst HEALTH_PENALTIES.

(** The adversarial damage list: every key of the table, [n] times over. *)
Definition adversarial (n : nat) : list string :=
  concat (repeat penalty_keys n).

(** A record that triggers none of the condition, operational-status and
    age adjustments. *)
Definition neutral (d : EquipmentData) : Prop :=
  let c := lower (get_str (condition d)) in
  let o := lower (get_str (operational_status d)) in
  str_in "poor" c = false /\ str_in "fair" c = false
  /\ str_in "non-functional" o = false /\ str_in "malfunctioning" o = false
  /\ str_in "limited" o = false /\ str_in "intermittent" o = false
  /\ estimated_age d = None.

Definition unknown_record : EquipmentData :=
  {| equipment_type := None; manufacturer := None; model_number := None;
     serial_number := None; specifications := None;
     condition := Some "Unknown"; operational_status := Some "Unknown";
     detected_damages := None; extracted_text := None; confidence := None;
     estimated_age := None |}.

Definition sample_ocr_text : string :=
  "MODEL: XYZ-100" ++ String nl ("SN: 98765" ++ String nl "220V").

(** The AI path is taken when the answer holds a brace-balanced object
    that the decoder accepts. *)
Definition ai_path_taken (json_loads : string -> option EquipmentData)
                         (response : option string) : bool :=
  match response with
  | Some text =>
      match extract_json_str (strip text) with
      | Some json_str => bool_decide (is_Some (json_loads json_str))
      | None => false
      end
  | None => false
  end.

Definition first_line (text : string) : string :=
  hd "" (split_lines (strip text)).

Definition marked_phrase : string := "ISO9001 CERTIFIED, CE MARKED".

(** The text contains the phrase, as written or in another letter case. *)
Definition mentions_phrase (ocr_text : string) : Prop :=
  str_in marked_phrase ocr_text = true
  \/ str_in marked_phrase (upper ocr_text) = true.

(** The labels appended after "ISO" and "CE". *)
Definition later_labels (ocr_upper : string) : list string :=
  ((if str_in "ROHS" ocr_upper then ["RoHS"] else [])
   ++ (if str_in "BIS" ocr_upper then ["BIS"] else [])
   ++ (if str_in "UL" ocr_upper then ["UL"] else []))%list.

(** The deduction made for the condition, the operational status and
    the age of a record, taken together. *)
Definition adjustment (d : EquipmentData) : Z :=
  let c := lower (get_str (condition d)) in
  let o := lower (get_str (operational_status d)) in
  let a := get_str (estimated_age d) in
  (if str_in "poor" c then 20 else if str_in "fair" c then 10 else 0)
  + (if str_in "non-functional" o || str_in "malfunctioning" o then 30
     else if str_in "limited" o || str_in "intermittent" o then 15 else 0)
  + (if str_in "old" (lower a) && str_in "> 15" a then 10 else 0).




(** The recommendation a damage label brings, if any: that of the first
    table key occurring in the label. *)
Fixpoint recommendation_of (table : list (string * string))
                           (damage : string) : option string :=
  match table with
  | [] => None
  | (damage_type, recommendation) :: rest =>
      if str_in (lower damage_type) (lower damage) then Some recommendation
      else recommendation_of rest damage
  end.

(** The fields of the equipment dict that the line scan of the fallback
    parser leaves alone. *)
Definition untouched_by_scan (d : EquipmentData) :=
  (equipment_type d, condition d, operational_status d, detected_damages d,
   extracted_text d, confidence d, estimated_age d).

Definition URGENT : string :=
  "URGENT: Schedule professional technician inspection".
Definition PREVENTIVE : string :=
  "Schedule preventive maintenance within 30 days".

(** The recommendations before the score-based directive is put in
    front. *)
Definition hints_and_repairs (equipment_data : EquipmentData)
                             (damages : list string) : list string :=
  let recs : list string := [] in
  let equipment_type := lower (get_str (equipment_type equipment_data)) in
  let recs :=
    if str_in "ups" equipment_type || str_in "inverter" equipment_type
    then list_append (list_append recs "Schedule battery capacity test")
                     "Check cooling fan operation"
    else recs in
  let recs :=
    if str_in "transformer" equipment_type
    then list_append (list_append recs "Check insulation resistance")
                     "Verify oil levels and quality"
    else recs in
  let recs :=
    if str_in "battery" (lower equipment_type)
    then list_append (list_append recs "Check individual cell voltages")
                     "Test specific gravity of electrolyte"
    else recs in
  fold_left (fun rs damage =>
               append_first_recommendation damage_recommendations damage rs)
            damages recs.

(** The keyword buckets of the fallback parser, in priority order. *)
Definition bucket_new (ocr_text : string) : bool :=
  any_in ["new"; "unused"; "never used"; "factory"; "boxed"] (lower ocr_text).
Definition bucket_used (ocr_text : string) : bool :=
  any_in ["used"; "service"; "maintenance required"] (lower ocr_text).
Definition bucket_damaged (ocr_text : string) : bool :=
  any_in ["rust"; "corrosion"; "damaged"; "broken"; "faulty"] (lower ocr_text).


Definition MODERN : list string := ["LED"; "DISPLAY"; "DIGITAL"; "MICROCONTROLLER"].
Definition MID_AGE : list string := ["LCD"; "ANALOG"; "TRANSISTOR"].
Definition OLDER : list string :=
  ["VACUUM TUBE"; "MECHANICAL DIALS"; "OUTDATED LABELS"].

Definition by_score_desc (l : list HealthReport) : Prop :=
  forall i j x y,
    (i < j)%nat -> l !! i = Some x -> l !! j = Some y ->
    overall_health_score y <= overall_health_score x.

Inductive desc : list HealthReport -> Prop :=
| desc_nil : desc []
| desc_cons x l :
    Forall (fun y => overall_health_score y <= overall_health_score x) l ->
    desc l -> desc (x :: l).

(** * Checks of the primitives on sample inputs *)

Example strip_sample : strip "  ab c  " = "ab c".
Proof. reflexivity. Qed.

Example split_lines_sample :
  split_lines ("a" ++ String nl (String nl ("b" ++ String nl "")))
  = ["a"; ""; "b"; ""].
Proof. reflexivity. Qed.

Example title_sample : title "SIEMENS" = "Siemens" /\ title "a1b c-d" = "A1B C-D".
Proof. split; reflexivity. Qed.

Example str_in_sample :
  str_in "" "" = true /\ str_in "rust" "severe rust damage" = true
  /\ str_in "rust" "rus t" = false.
Proof. repeat split. Qed.

(** Greedy repetition gives characters back, the optional fraction is
    taken when present, and the leftmost match wins. *)
Example search_samples :
  search (hd Eps model_patterns) "MADE BY SIEMENS, MODEL NUMBER: 12.5 VOLTS"
  = Some (Some "NUMBER")
  /\ search (hd Eps voltage_patterns) "MADE BY SIEMENS, MODEL NUMBER: 12.5 VOLTS"
     = Some (Some "12.5")
  /\ search (hd Eps voltage_patterns) "12.V 7 V" = Some (Some "7")
  /\ search (hd Eps serial_patterns) "SERIAL:: -A- 1.2.3V" = Some (Some "-A-")
  /\ search (hd Eps model_patterns) "MODEL" = None.
Proof. repeat split; vm_compute; reflexivity. Qed.

Example extract_json_str_samples :
  extract_json_str "noise {a {b} c} tail }" = Some "{a {b} c}"
  /\ extract_json_str "} {" = Some ""
  /\ extract_json_str "no object" = None.
Proof. repeat split; vm_compute; reflexivity. Qed.

(** * Properties *)

(** ** The damage deduction as a sum of per-label penalties *)

Section Deduction.
Variable penalties : list (string * Z).

Lemma apply_first_penalty_eq damage score :
  apply_first_penalty penalties damage score
  = score - penalty_of penalties damage.
Proof.
  induction penalties as [|[k p] rest IH]; simpl.
  - lia.
  - destruct (str_in (lower k) (lower damage)); [reflexivity | exact IH].
Qed.

Lemma deduct_damages_eq damages score :
  deduct_damages penalties damages score
  = score - total_penalty penalties damages.
Proof.
  unfold deduct_damages. revert score.
  induction damages as [|d ds IH]; intros score; simpl.
  - lia.
  - rewrite IH, apply_first_penalty_eq. lia.
Qed.

Lemma total_penalty_app ds1 ds2 :
  total_penalty penalties (ds1 ++ ds2)%list
  = total_penalty penalties ds1 + total_penalty penalties ds2.
Proof.
  induction ds1 as [|d ds IH]; simpl; [reflexivity | rewrite IH; lia].
Qed.

Lemma total_penalty_perm ds1 ds2 :
  Permutation ds1 ds2 ->
  total_penalty penalties ds1 = total_penalty penalties ds2.
Proof.
  induction 1 as [| d l l' _ IH | a b l | l l' l'' _ IH1 _ IH2]; simpl.
  - reflexivity.
  - now rewrite IH.
  - lia.
  - now rewrite IH1.
Qed.

(** The first entry whose key occurs in the label decides the penalty. *)
Lemma penalty_of_first_match damage pre k p post :
  penalties = (pre ++ (k, p) :: post)%list ->
  (forall k' p', In (k', p') pre ->
                 str_in (lower k') (lower damage) = false) ->
  str_in (lower k) (lower damage) = true ->
  penalty_of penalties damage = p.
Proof.
  intros -> Hpre Hk.
  induction pre as [|[k' p'] pre IH]; simpl.
  - now rewrite Hk.
  - rewrite (Hpre k' p') by now left.
    apply IH. intros k'' p'' Hin. apply (Hpre k'' p''). now right.
Qed.

Lemma penalty_of_no_match damage :
  (forall k p, In (k, p) penalties ->
               str_in (lower k) (lower damage) = false) ->
  penalty_of penalties damage = 0.
Proof.
  intros Hno.
  induction penalties as [|[k p] rest IH]; simpl; [reflexivity |].
  rewrite (Hno k p) by now left.
  apply IH. intros k' p' Hin. apply (Hno k' p'). now right.
Qed.
End Deduction.

Lemma penalty_of_range penalties damage :
  weights_in_range penalties -> 0 <= penalty_of penalties damage <= 100.
Proof.
  induction 1 as [|[k p] rest Hkp _ IH]; simpl; [lia |].
  destruct (str_in (lower k) (lower damage)); [exact Hkp | exact IH].
Qed.

Lemma total_penalty_nonneg penalties damages :
  weights_in_range penalties -> 0 <= total_penalty penalties damages.
Proof.
  intros Hr. induction damages as [|d ds IH]; simpl; [lia |].
  pose proof (penalty_of_range penalties d Hr). lia.
Qed.

Lemma HEALTH_PENALTIES_in_range : weights_in_range HEALTH_PENALTIES.
Proof. unfold weights_in_range, HEALTH_PENALTIES. repeat constructor; simpl; lia. Qed.

Lemma damage_penalties_in_range : weights_in_range App.damage_penalties.
Proof.
  unfold weights_in_range, App.damage_penalties. repeat constructor; simpl; lia.
Qed.

Lemma penalty_keys_total :
  total_penalty HEALTH_PENALTIES penalty_keys = 220
  /\ total_penalty App.damage_penalties penalty_keys = 220.
Proof. split; vm_compute; reflexivity. Qed.

Lemma adversarial_total n :
  total_penalty HEALTH_PENALTIES (adversarial n) = 220 * Z.of_nat n
  /\ total_penalty App.damage_penalties (adversarial n) = 220 * Z.of_nat n.
Proof.
  unfold adversarial.
  induction n as [|n [IH1 IH2]]; [split; reflexivity |].
  cbn [repeat concat]. rewrite !total_penalty_app, IH1, IH2.
  destruct penalty_keys_total as [-> ->]. split; lia.
Qed.

Lemma unknown_record_neutral : neutral unknown_record.
Proof. unfold neutral. vm_compute. repeat split. Qed.

(** On a neutral record the score is 100 minus the damage penalties,
    clamped. *)
Lemma neutral_score d damages :
  neutral d ->
  calculate_health_score d damages
  = Z.max 0 (Z.min 100 (100 - total_penalty HEALTH_PENALTIES damages)).
Proof.
  intros (Hp & Hf & Hn & Hm & Hl & Hi & Ha).
  unfold calculate_health_score. cbv zeta.
  rewrite Hp, Hf, Hn, Hm, Hl, Hi, Ha, deduct_damages_eq. reflexivity.
Qed.

(** C1. For every equipment record and every damage list the score is an
    integer between 0 and 100, in [health_analyzer.py] and in [app.py];
    on the adversarial list holding every penalty-table key, repeated
    any positive number of times, it is exactly 0. *)
Theorem calculate_health_score_bounds (d : EquipmentData) (damages : list string) :
  0 <= calculate_health_score d damages <= 100
  /\ 0 <= App.calculate_health_score d damages <= 100
  /\ (forall n, calculate_health_score d (adversarial (S n)) = 0)
  /\ (forall n, App.calculate_health_score d (adversarial (S n)) = 0).
Proof.
  pose proof (total_penalty_nonneg _ damages HEALTH_PENALTIES_in_range) as H1.
  pose proof (total_penalty_nonneg _ damages damage_penalties_in_range) as H2.
  repeat split; try (unfold calculate_health_score; lia).
  - unfold App.calculate_health_score. lia.
  - unfold App.calculate_health_score. cbv zeta.
    rewrite deduct_damages_eq.
    repeat match goal with |- context [if ?b then _ else _] => destruct b end;
      lia.
  - intros n. unfold calculate_health_score. cbv zeta.
    rewrite deduct_damages_eq.
    destruct (adversarial_total (S n)) as [-> _].
    repeat match goal with |- context [if ?b then _ else _] => destruct b end;
      lia.
  - intros n. unfold App.calculate_health_score. cbv zeta.
    rewrite deduct_damages_eq.
    destruct (adversarial_total (S n)) as [_ ->].
    repeat match goal with |- context [if ?b then _ else _] => destruct b end;
      lia.
Qed.

(** C3. Each damage contributes its own penalty: on a record whose
    condition and operational status trigger no adjustment and that has
    no age field, the score is 100 for the empty list, 75 for
    ["burn marks"] and 60 for ["burn marks", "rust"]. *)
Theorem penalties_are_independent (d : EquipmentData) :
  neutral d ->
  calculate_health_score d [] = 100
  /\ calculate_health_score d ["burn marks"] = 75
  /\ calculate_health_score d ["burn marks"; "rust"] = 60.
Proof.
  intros Hd. rewrite !(neutral_score d _ Hd).
  repeat split; vm_compute; reflexivity.
Qed.

Lemma penalties_are_independent_witness :
  calculate_health_score unknown_record [] = 100
  /\ calculate_health_score unknown_record ["burn marks"] = 75
  /\ calculate_health_score unknown_record ["burn marks"; "rust"] = 60.
Proof.
  apply (penalties_are_independent unknown_record).
  unfold neutral. vm_compute. repeat split.
Defined.

(** C4. A label is matched by case-insensitive substring against the
    table keys in table order: on a neutral record the label
    "Severe Rust Damage On Casing", which equals no key, costs the rust
    penalty 15; a label in which no key occurs costs nothing; and in
    general the first key occurring in the label fixes the deduction. *)
Theorem damage_labels_match_by_substring (d : EquipmentData) :
  neutral d ->
  calculate_health_score d ["Severe Rust Damage On Casing"] = 85
  /\ ~ In "Severe Rust Damage On Casing" penalty_keys
  /\ (forall label,
        (forall k p, In (k, p) HEALTH_PENALTIES ->
                     str_in (lower k) (lower label) = false) ->
        calculate_health_score d [label] = 100)
  /\ (forall label pre k p post,
        HEALTH_PENALTIES = (pre ++ (k, p) :: post)%list ->
        (forall k' p', In (k', p') pre ->
                       str_in (lower k') (lower label) = false) ->
        str_in (lower k) (lower label) = true ->
        calculate_health_score d [label] = 100 - p).
Proof.
  intros Hd. repeat split.
  - rewrite (neutral_score d _ Hd). vm_compute. reflexivity.
  - vm_compute. intros H.
    repeat (destruct H as [H | H]; [discriminate H |]). exact H.
  - intros label Hno. rewrite (neutral_score d _ Hd). unfold total_penalty. cbn [fold_right].
    rewrite (penalty_of_no_match _ _ Hno). reflexivity.
  - intros label pre k p post Heq Hpre Hk.
    rewrite (neutral_score d _ Hd). unfold total_penalty. cbn [fold_right].
    rewrite (penalty_of_first_match _ _ _ _ _ _ Heq Hpre Hk).
    assert (0 <= p <= 100) as Hp.
    { pose proof HEALTH_PENALTIES_in_range as Hr.
      unfold weights_in_range in Hr. rewrite List.Forall_forall in Hr.
      apply (Hr (k, p)). rewrite Heq. apply in_elt. }
    lia.
Qed.

Lemma damage_labels_match_by_substring_witness :
  calculate_health_score unknown_record ["Severe Rust Damage On Casing"] = 85
  /\ calculate_health_score unknown_record ["dust on the casing"] = 100
  /\ calculate_health_score unknown_record ["Scorch Marks beside burn marks"]
     = 100 - 25.
Proof.
  assert (neutral unknown_record) as Hn
    by (unfold neutral; vm_compute; repeat split).
  destruct (damage_labels_match_by_substring unknown_record Hn)
    as (Hrust & _ & Hnone & Hfirst).
  split; [exact Hrust | split].
  - apply Hnone. intros k p Hin. simpl in Hin.
    repeat (destruct Hin as [[= <- <-] | Hin]; [vm_compute; reflexivity |]).
    contradiction.
  - apply (Hfirst _ [] "burn marks" 25 (tl HEALTH_PENALTIES)).
    + reflexivity.
    + intros k' p' [].
    + vm_compute. reflexivity.
Defined.

(** C9. The score does not depend on the order of the damage list. *)
Theorem calculate_health_score_permutation
    (d : EquipmentData) (damages1 damages2 : list string) :
  Permutation damages1 damages2 ->
  calculate_health_score d damages1 = calculate_health_score d damages2.
Proof.
  intros Hperm. unfold calculate_health_score. cbv zeta.
  rewrite !deduct_damages_eq.
  rewrite (total_penalty_perm _ _ _ Hperm). reflexivity.
Qed.

Lemma calculate_health_score_permutation_witness :
  calculate_health_score unknown_record ["rust"; "water damage"]
  = calculate_health_score unknown_record ["water damage"; "rust"].
Proof.
  apply (calculate_health_score_permutation unknown_record).
  apply perm_swap.
Defined.

(** C5. The status, risk level and recommended action of the report are
    a step function of the score with thresholds 80, 60, 40 and 20: the
    five ranges are disjoint, cover every score, and each fixes the
    triple; 80 is "Excellent"/"Low" and 79 is "Good"/"Low-Medium". *)
Theorem report_status_is_step_function
    (d : EquipmentData) (score : Z) (damages : list string) :
  let r := generate_health_report d score damages in
  (80 <= score ->
     status r = "Excellent" /\ risk_level r = "Low"
     /\ recommended_action r = "Continue routine maintenance")
  /\ (60 <= score < 80 ->
     status r = "Good" /\ risk_level r = "Low-Medium"
     /\ recommended_action r = "Schedule routine inspection")
  /\ (40 <= score < 60 ->
     status r = "Fair" /\ risk_level r = "Medium"
     /\ recommended_action r = "Schedule maintenance soon")
  /\ (20 <= score < 40 ->
     status r = "Poor" /\ risk_level r = "High"
     /\ recommended_action r = "Immediate attention required")
  /\ (score < 20 ->
     status r = "Critical" /\ risk_level r = "Critical"
     /\ recommended_action r = "Immediate shutdown and inspection").
Proof.
  unfold generate_health_report, status_tier. rewrite !Z.geb_leb.
  destruct (Z.leb_spec 80 score); [|destruct (Z.leb_spec 60 score);
    [|destruct (Z.leb_spec 40 score); [|destruct (Z.leb_spec 20 score)]]];
    cbn [status risk_level recommended_action];
    repeat split; intros; try reflexivity; lia.
Qed.

Lemma report_status_is_step_function_witness :
  (status (generate_health_report unknown_record 80 []) = "Excellent"
   /\ risk_level (generate_health_report unknown_record 80 []) = "Low")
  /\ (status (generate_health_report unknown_record 79 []) = "Good"
      /\ risk_level (generate_health_report unknown_record 79 []) = "Low-Medium")
  /\ status (generate_health_report unknown_record 59 []) = "Fair"
  /\ status (generate_health_report unknown_record 39 []) = "Poor"
  /\ (status (generate_health_report unknown_record 19 []) = "Critical"
      /\ risk_level (generate_health_report unknown_record 19 []) = "Critical").
Proof.
  pose proof (report_status_is_step_function unknown_record) as T.
  split; [| split; [| split; [| split]]].
  - destruct (T 80 []) as (H & _).
    destruct (H ltac:(lia)) as (Hs & Hr & _). exact (conj Hs Hr).
  - destruct (T 79 []) as (_ & H & _).
    destruct (H ltac:(lia)) as (Hs & Hr & _). exact (conj Hs Hr).
  - destruct (T 59 []) as (_ & _ & H & _).
    destruct (H ltac:(lia)) as (Hs & _). exact Hs.
  - destruct (T 39 []) as (_ & _ & _ & H & _).
    destruct (H ltac:(lia)) as (Hs & _). exact Hs.
  - destruct (T 19 []) as (_ & _ & _ & _ & H).
    destruct (H ltac:(lia)) as (Hs & Hr & _). exact (conj Hs Hr).
Defined.

(** C10. The breakdown field [damage_impact] is ten times the number of
    damage labels whatever the labels are, and so differs from the
    deduction applied to the score: one "water damage" label lowers the
    score of a neutral record by 40 but is reported as an impact of 10. *)
Theorem damage_impact_is_ten_per_label
    (d : EquipmentData) (score : Z) (damages : list string) :
  damage_impact (breakdown (generate_health_report d score damages))
  = 10 * Z.of_nat (List.length damages)
  /\ 100 - calculate_health_score unknown_record ["water damage"] = 40
  /\ damage_impact
       (breakdown (generate_health_report unknown_record
                     (calculate_health_score unknown_record ["water damage"])
                     ["water damage"])) = 10.
Proof.
  split; [| split; vm_compute; reflexivity].
  unfold generate_health_report.
  destruct (status_tier score) as [[? ?] ?]. cbn [breakdown damage_impact]. lia.
Qed.

(** ** Substring facts *)

Section Substring.

Lemma append_nil_l (b : string) : "" ++ b = b.
Proof. reflexivity. Qed.

Lemma append_cons (x : ascii) (a b : string) :
  String x a ++ b = String x (a ++ b).
Proof. reflexivity. Qed.

Lemma append_assoc' (a b c : string) : (a ++ b) ++ c = a ++ (b ++ c).
Proof.
  induction a as [|x a IH]; [reflexivity |].
  rewrite !append_cons. now f_equal.
Qed.

Lemma prefix_append (a b : string) : String.prefix a (a ++ b) = true.
Proof.
  induction a as [|x a IH].
  - rewrite append_nil_l. now destruct b.
  - rewrite append_cons. simpl.
    destruct (ascii_dec x x); [exact IH | contradiction].
Qed.

Lemma prefix_elim (a s : string) :
  String.prefix a s = true -> exists b, s = a ++ b.
Proof.
  revert s. induction a as [|x a IH]; intros s H.
  - now exists s.
  - destruct s as [|y s]; [discriminate |]. simpl in H.
    destruct (ascii_dec x y) as [-> | _]; [| discriminate].
    destruct (IH s H) as [b ->]. now exists b.
Qed.

Lemma str_in_unfold (sub s : string) :
  str_in sub s
  = String.prefix sub s
    || match s with EmptyString => false | String _ s' => str_in sub s' end.
Proof. destruct s; reflexivity. Qed.

Lemma str_in_prefix (sub s : string) :
  String.prefix sub s = true -> str_in sub s = true.
Proof. intros H. rewrite str_in_unfold, H. reflexivity. Qed.

Lemma str_in_intro (pre sub post : string) :
  str_in sub (pre ++ sub ++ post) = true.
Proof.
  induction pre as [|x pre IH].
  - rewrite append_nil_l. apply str_in_prefix, prefix_append.
  - rewrite append_cons, str_in_unfold, IH. apply orb_true_r.
Qed.

Lemma str_in_elim (sub s : string) :
  str_in sub s = true -> exists pre post, s = pre ++ sub ++ post.
Proof.
  induction s as [|x s IH]; rewrite str_in_unfold; intros H.
  - rewrite orb_false_r in H. apply prefix_elim in H as [b Hb].
    now exists EmptyString, b.
  - apply orb_true_iff in H as [H | H].
    + apply prefix_elim in H as [b Hb]. now exists EmptyString, b.
    + destruct (IH H) as (pre & post & ->). now exists (String x pre), post.
Qed.

Lemma str_in_trans (a b c : string) :
  str_in a b = true -> str_in b c = true -> str_in a c = true.
Proof.
  intros Hab Hbc.
  apply str_in_elim in Hab as (p1 & q1 & ->).
  apply str_in_elim in Hbc as (p2 & q2 & ->).
  replace (p2 ++ (p1 ++ a ++ q1) ++ q2) with ((p2 ++ p1) ++ a ++ (q1 ++ q2))
    by now rewrite !append_assoc'.
  apply str_in_intro.
Qed.

Lemma map_chars_append (f : ascii -> ascii) (a b : string) :
  map_chars f (a ++ b) = map_chars f a ++ map_chars f b.
Proof.
  induction a as [|x a IH]; [reflexivity |].
  rewrite append_cons. simpl. rewrite append_cons. now f_equal.
Qed.

Lemma str_in_map_chars (f : ascii -> ascii) (a b : string) :
  str_in a b = true -> str_in (map_chars f a) (map_chars f b) = true.
Proof.
  intros H. apply str_in_elim in H as (p & q & ->).
  rewrite !map_chars_append. apply str_in_intro.
Qed.

End Substring.

(** ** The fallback parser *)

(** C6. The regex fallback parser takes the OCR text alone: on the three
    lines "MODEL: XYZ-100", "SN: 98765", "220V" it returns the model
    number "XYZ-100", the serial number "98765" and the voltage "220V",
    and [parse_equipment_data] returns the same fields whenever the
    model call fails, whatever the decoder and the other arguments. *)
Theorem basic_parse_equipment_sample :
  let d := basic_parse_equipment sample_ocr_text in
  model_number d = Some "XYZ-100"
  /\ serial_number d = Some "98765"
  /\ specs_of d !! "voltage" = Some "220V"
  /\ forall json_loads equipment_type damages,
       parse_equipment_data json_loads None sample_ocr_text
                            equipment_type damages = d.
Proof.
  repeat split; try (vm_compute; reflexivity).
Qed.

(** ** The damage list of the parsed record *)

Section DamagesOfBasicParse.

Lemma scan_manufacturers_damages ms line d :
  detected_damages (scan_manufacturers ms line d) = detected_damages d.
Proof.
  induction ms as [|m ms IH]; simpl; [reflexivity |].
  destruct (str_in m line && negb (field_truthy (manufacturer d)));
    [reflexivity | exact IH].
Qed.

Lemma scan_patterns_damages ps line is_set assign d :
  (forall g d', detected_damages (assign g d') = detected_damages d') ->
  detected_damages (scan_patterns ps line is_set assign d)
  = detected_damages d.
Proof.
  intros Hassign.
  induction ps as [|p ps IH]; simpl; [reflexivity |].
  destruct (search p line) as [g|]; [| exact IH].
  destruct (negb (is_set d)); [apply Hassign | exact IH].
Qed.

Lemma process_line_damages line d :
  detected_damages (process_line line d) = detected_damages d.
Proof.
  unfold process_line. cbv zeta.
  rewrite !scan_patterns_damages by reflexivity.
  apply scan_manufacturers_damages.
Qed.

Lemma fold_process_line_damages lines d :
  detected_damages (fold_left (fun d line => process_line line d) lines d)
  = detected_damages d.
Proof.
  revert d. induction lines as [|l ls IH]; intros d; simpl; [reflexivity |].
  rewrite IH. apply process_line_damages.
Qed.

(** The fallback parser never fills in the damage list. *)
Lemma basic_parse_equipment_damages ocr_text :
  detected_damages (basic_parse_equipment ocr_text) = Some [].
Proof.
  unfold basic_parse_equipment. cbv zeta.
  repeat match goal with
         | |- context [if ?b then _ else _] => destruct b
         end;
    cbn [set_assessment detected_damages];
    apply fold_process_line_damages.
Qed.

End DamagesOfBasicParse.

(** On the AI path the caller's damage list overwrites the decoded one. *)
Lemma parse_equipment_data_ai_path json_loads response ocr_text equipment_type damages :
  ai_path_taken json_loads response = true ->
  detected_damages
    (parse_equipment_data json_loads response ocr_text equipment_type damages)
  = Some damages.
Proof.
  unfold ai_path_taken, parse_equipment_data.
  destruct response as [text|]; [| discriminate]. cbv zeta.
  destruct (extract_json_str (strip text)) as [js|]; [| discriminate].
  destruct (json_loads js) as [pd|]; [reflexivity |].
  intros H. apply bool_decide_eq_true in H as [x Hx]. discriminate Hx.
Qed.

(** C2 (fails on the fallback path). Whenever [parse_equipment_data]
    falls back to the regex parser the returned record carries the empty
    damage list, not the caller's: with the model call failing and the
    caller passing ["rust"], [detected_damages] is [[]]. *)
Theorem parse_fallback_drops_damages :
  (forall json_loads response ocr_text equipment_type damages,
     detected_damages
       (parse_equipment_data json_loads response ocr_text equipment_type damages)
     = Some (if ai_path_taken json_loads response then damages else []))
  /\ (forall json_loads,
        detected_damages
          (parse_equipment_data json_loads None sample_ocr_text
                                "Transformer" ["rust"])
        = Some []
        /\ Some ([] : list string) <> Some ["rust"]).
Proof.
  split.
  - intros json_loads response ocr_text equipment_type damages.
    destruct (ai_path_taken json_loads response) eqn:Hai.
    + now apply parse_equipment_data_ai_path.
    + unfold ai_path_taken, parse_equipment_data in *.
      destruct response as [text|];
        [| apply basic_parse_equipment_damages]. cbv zeta.
      destruct (extract_json_str (strip text)) as [js|];
        [| apply basic_parse_equipment_damages].
      destruct (json_loads js) as [pd|];
        [| apply basic_parse_equipment_damages].
      apply bool_decide_eq_false in Hai. exfalso. apply Hai. now exists pd.
  - intros json_loads. split; [| discriminate].
    apply basic_parse_equipment_damages.
Qed.

(** ** Classification *)

Lemma OTHER_is_category : OTHER ∈ EQUIPMENT_CATEGORIES.
Proof. apply list_elem_of_In. unfold OTHER, EQUIPMENT_CATEGORIES. simpl. tauto. Qed.

(** [ai_classifier.classify_equipment_type] always yields one of the
    eight categories: a failing call yields the fallback category, and
    so does every answer whose first line, after the answer is stripped,
    is not one of the eight; otherwise that first line is the result. *)
Lemma classify_equipment_type_coerces (response : option string) :
  (classify_equipment_type response ∈ EQUIPMENT_CATEGORIES)
  /\ (response = None -> classify_equipment_type response = OTHER)
  /\ (forall text, response = Some text ->
        first_line text ∉ EQUIPMENT_CATEGORIES ->
        classify_equipment_type response = OTHER)
  /\ (forall text, response = Some text ->
        first_line text ∈ EQUIPMENT_CATEGORIES ->
        classify_equipment_type response = first_line text).
Proof.
  unfold classify_equipment_type, first_line.
  destruct response as [text|]; cbv zeta.
  - destruct (decide (hd "" (split_lines (strip text)) ∈ EQUIPMENT_CATEGORIES))
      as [Hin | Hnot].
    + split; [exact Hin | split; [discriminate | split]];
        intros t [= <-] Ht; [contradiction | reflexivity].
    + split; [apply OTHER_is_category | split; [discriminate | split]];
        intros t [= <-] Ht; [reflexivity | contradiction].
  - split; [apply OTHER_is_category | split; [reflexivity | split]];
      discriminate.
Qed.

Lemma jet_engine_not_category : "Jet Engine" ∉ EQUIPMENT_CATEGORIES.
Proof.
  intros Hin. apply list_elem_of_In in Hin. vm_compute in Hin.
  repeat (destruct Hin as [Hin | Hin]; [discriminate Hin |]). exact Hin.
Qed.

(** C7 (fails in [app.py]). The answer "Jet Engine" is not one of the
    eight categories; [ai_classifier.classify_equipment_type] coerces it
    to "Other Industrial Equipment", but the copy of the classifier in
    [app.py] returns it unchanged. *)
Theorem app_classifier_keeps_unknown_category :
  ("Jet Engine" ∉ EQUIPMENT_CATEGORIES)
  /\ classify_equipment_type (Some "Jet Engine") = "Other Industrial Equipment"
  /\ App.classify_equipment_type (Some "Jet Engine") = "Jet Engine"
  /\ (App.classify_equipment_type (Some "Jet Engine") ∉ EQUIPMENT_CATEGORIES).
Proof.
  split; [exact jet_engine_not_category |].
  split; [| split; [reflexivity | exact jet_engine_not_category]].
  destruct (classify_equipment_type_coerces (Some "Jet Engine"))
    as (_ & _ & H & _).
  apply (H "Jet Engine" eq_refl). exact jet_engine_not_category.
Qed.

(** ** Compliance scan *)

Lemma mentions_phrase_upper ocr_text :
  mentions_phrase ocr_text -> str_in marked_phrase (upper ocr_text) = true.
Proof.
  intros [H | H]; [| exact H].
  apply (str_in_map_chars upper_char) in H. exact H.
Qed.

(** A text that contains the phrase and a further token: the found-list
    is longer than ["ISO", "CE"], so the claim C8 as stated does not
    hold of every text containing the phrase. *)
Lemma analyze_compliance_more_labels :
  ~ (forall image_path ocr_text equipment_type,
       str_in marked_phrase ocr_text = true ->
       certifications_found
         (analyze_compliance image_path ocr_text equipment_type)
       = ["ISO"; "CE"]).
Proof.
  intros H.
  specialize (H "" "ISO9001 CERTIFIED, CE MARKED, UL LISTED" "" eq_refl).
  vm_compute in H. discriminate H.
Qed.

(** C8 (amended). For every OCR text containing
    "ISO9001 CERTIFIED, CE MARKED", in any letter case, the scan sets
    [iso_certified] and [ce_marked], and the found-list starts with
    "ISO", "CE" in that order, followed by the labels of those of ROHS,
    BIS and UL that occur in the upper-cased text; it is exactly
    ["ISO", "CE"] if and only if none of the three occurs. *)
Theorem analyze_compliance_phrase (image_path ocr_text equipment_type : string) :
  mentions_phrase ocr_text ->
  let r := analyze_compliance image_path ocr_text equipment_type in
  iso_certified r = true
  /\ ce_marked r = true
  /\ certifications_found r
     = ("ISO" :: "CE" :: later_labels (upper ocr_text))
  /\ (certifications_found r = ["ISO"; "CE"]
      <-> str_in "ROHS" (upper ocr_text) = false
          /\ str_in "BIS" (upper ocr_text) = false
          /\ str_in "UL" (upper ocr_text) = false).
Proof.
  intros Hm. apply mentions_phrase_upper in Hm.
  assert (str_in "ISO" (upper ocr_text) = true) as Hiso.
  { apply (str_in_trans _ marked_phrase); [reflexivity | exact Hm]. }
  assert (str_in "CE" (upper ocr_text) = true) as Hce.
  { apply (str_in_trans _ marked_phrase); [reflexivity | exact Hm]. }
  unfold analyze_compliance, later_labels, list_append. cbv zeta.
  cbn [iso_certified ce_marked certifications_found].
  rewrite Hiso, Hce.
  destruct (str_in "ROHS" (upper ocr_text));
    destruct (str_in "BIS" (upper ocr_text));
    destruct (str_in "UL" (upper ocr_text)); cbn;
    (split; [reflexivity | split; [reflexivity | split; [reflexivity |]]]);
    split; try discriminate; try (intros (? & ? & ?); discriminate);
    try reflexivity; auto.
Qed.

Lemma analyze_compliance_phrase_witness :
  iso_certified (analyze_compliance "" marked_phrase "") = true
  /\ ce_marked (analyze_compliance "" marked_phrase "") = true
  /\ certifications_found (analyze_compliance "" marked_phrase "")
     = ["ISO"; "CE"].
Proof.
  destruct (analyze_compliance_phrase "" marked_phrase "")
    as (Hiso & Hce & _ & Hiff).
  - left. vm_compute. reflexivity.
  - split; [exact Hiso | split; [exact Hce |]].
    apply Hiff. vm_compute. repeat split.
Defined.

(** * Further properties of the scorer *)

Lemma calculate_health_score_eq d damages :
  calculate_health_score d damages
  = Z.max 0 (Z.min 100
      (100 - total_penalty HEALTH_PENALTIES damages - adjustment d)).
Proof.
  unfold calculate_health_score, adjustment. cbv zeta.
  rewrite deduct_damages_eq.
  repeat match goal with |- context [if ?b then _ else _] => destruct b end;
    f_equal; f_equal; lia.
Qed.

Lemma adjustment_range d : 0 <= adjustment d <= 60.
Proof.
  unfold adjustment. cbv zeta.
  repeat match goal with |- context [if ?b then _ else _] => destruct b end;
    lia.
Qed.

(** X1. Detecting more damage never raises the score. *)
Theorem more_damage_never_raises_score
    (d : EquipmentData) (damages more : list string) :
  calculate_health_score d (damages ++ more)%list
  <= calculate_health_score d damages.
Proof.
  rewrite !calculate_health_score_eq, total_penalty_app.
  pose proof (total_penalty_nonneg HEALTH_PENALTIES more
                HEALTH_PENALTIES_in_range).
  lia.
Qed.

(** X2. Without any damage the score is 100 minus the record's
    adjustment and never drops below 40, so the report never rates an
    undamaged unit "Poor" or "Critical". *)
Theorem undamaged_score_at_least_40 (d : EquipmentData) :
  calculate_health_score d [] = 100 - adjustment d
  /\ 40 <= calculate_health_score d []
  /\ In (status (generate_health_report d (calculate_health_score d []) []))
        ["Excellent"; "Good"; "Fair"].
Proof.
  pose proof (adjustment_range d) as Hr.
  assert (calculate_health_score d [] = 100 - adjustment d) as Hs.
  { rewrite calculate_health_score_eq. simpl. lia. }
  split; [exact Hs | split; [lia |]].
  rewrite Hs. unfold generate_health_report, status_tier.
  rewrite !Z.geb_leb.
  destruct (Z.leb_spec 80 (100 - adjustment d));
    [| destruct (Z.leb_spec 60 (100 - adjustment d));
       [| destruct (Z.leb_spec 40 (100 - adjustment d)); [| lia]]];
    cbn [status]; simpl; tauto.
Qed.

(** X3. The scorer of [health_analyzer.py] is never more lenient than
    the copy in [app.py], and the two agree on records that mention
    neither "malfunctioning" nor "intermittent" and carry no age. *)
Theorem modular_scorer_not_more_lenient
    (d : EquipmentData) (damages : list string) :
  calculate_health_score d damages <= App.calculate_health_score d damages
  /\ (str_in "malfunctioning" (lower (get_str (operational_status d))) = false ->
      str_in "intermittent" (lower (get_str (operational_status d))) = false ->
      estimated_age d = None ->
      calculate_health_score d damages = App.calculate_health_score d damages).
Proof.
  pose proof (total_penalty_nonneg HEALTH_PENALTIES damages
                HEALTH_PENALTIES_in_range) as Hp.
  assert (total_penalty App.damage_penalties damages
          = total_penalty HEALTH_PENALTIES damages) as Heq by reflexivity.
  split.
  - unfold calculate_health_score, App.calculate_health_score. cbv zeta.
    rewrite !deduct_damages_eq, Heq.
    repeat match goal with |- context [if ?b then _ else _] =>
             destruct b eqn:? end;
      simpl in *; try discriminate; lia.
  - intros Hm Hi Ha.
    unfold calculate_health_score, App.calculate_health_score. cbv zeta.
    rewrite !deduct_damages_eq, Heq, Hm, Hi, Ha, !orb_false_r. simpl.
    repeat match goal with |- context [if ?b then _ else _] => destruct b end;
      lia.
Qed.

Lemma modular_scorer_not_more_lenient_witness :
  calculate_health_score unknown_record ["rust"]
  = App.calculate_health_score unknown_record ["rust"].
Proof.
  apply (modular_scorer_not_more_lenient unknown_record ["rust"]);
    vm_compute; reflexivity.
Defined.

(** ** Letter case *)








(** * Further properties of the report *)

(** X5. Within one report the maintenance schedule and the lifespan
    estimate follow the status tier: "Excellent" goes with the routine
    6-month schedule and "5+ years", "Good" with the 1-month schedule,
    "Fair" with the 2-week schedule, and both "Poor" and "Critical" with
    the 1-week schedule. *)
Theorem report_schedule_follows_status
    (d : EquipmentData) (score : Z) (damages : list string) :
  let r := generate_health_report d score damages in
  (status r = "Excellent" <->
     next_maintenance_date r = "Routine - Within 6 months")
  /\ (status r = "Excellent" <->
     estimated_lifespan_remaining r = "5+ years (excellent condition)")
  /\ (status r = "Good" <->
     next_maintenance_date r = "Scheduled - Within 1 month")
  /\ (status r = "Fair" <->
     next_maintenance_date r = "Urgent - Within 2 weeks")
  /\ (status r = "Poor" \/ status r = "Critical" <->
     next_maintenance_date r = "Immediate - Within 1 week").
Proof.
  unfold generate_health_report, status_tier, _estimate_maintenance_schedule,
    _estimate_remaining_lifespan.
  rewrite !Z.geb_leb.
  destruct (Z.leb_spec 80 score); [|destruct (Z.leb_spec 60 score);
    [|destruct (Z.leb_spec 40 score); [|destruct (Z.leb_spec 20 score)]]];
    repeat match goal with
           | |- context [(?a <? ?b)%Z] => destruct (Z.ltb_spec a b); try lia
           end;
    cbn [status next_maintenance_date estimated_lifespan_remaining];
    repeat split; intros; try reflexivity; try discriminate;
    try (left; reflexivity); try (right; reflexivity);
    match goal with H : _ \/ _ |- _ => destruct H; discriminate end.
Qed.

(** ** The recommendation set *)

Lemma append_first_recommendation_eq table damage recs :
  append_first_recommendation table damage recs
  = match recommendation_of table damage with
    | Some r => list_append recs r
    | None => recs
    end.
Proof.
  induction table as [|[k r] rest IH]; simpl; [reflexivity |].
  destruct (str_in (lower k) (lower damage)); [reflexivity | exact IH].
Qed.

Lemma elem_of_damage_loop table (damages recs : list string) (x : string) :
  x ∈ fold_left (fun rs damage => append_first_recommendation table damage rs)
                damages recs
  <-> x ∈ recs
      \/ exists damage, damage ∈ damages
                        /\ recommendation_of table damage = Some x.
Proof.
  revert recs. induction damages as [|dm dms IH]; intros recs; simpl.
  - split; [now left | intros [H | (dm & Hin & _)]; [exact H |]].
    now apply elem_of_nil in Hin.
  - rewrite IH, append_first_recommendation_eq. split.
    + intros [H | (dm' & Hin & Hrec)].
      * destruct (recommendation_of table dm) as [r|] eqn:Hr; [| now left].
        unfold list_append in H. apply elem_of_app in H as [H | H];
          [now left |].
        apply list_elem_of_singleton in H as ->.
        right. exists dm. split; [left | exact Hr].
      * right. exists dm'. split; [now right | exact Hrec].
    + intros [H | (dm' & Hin & Hrec)].
      * left. destruct (recommendation_of table dm); [| exact H].
        unfold list_append. apply elem_of_app. now left.
      * apply elem_of_cons in Hin as [-> | Hin].
        -- left. rewrite Hrec. unfold list_append. apply elem_of_app.
           right. now left.
        -- right. now exists dm'.
Qed.

Lemma recommendation_of_table damage x :
  recommendation_of damage_recommendations damage = Some x ->
  x ∈ map snd damage_recommendations.
Proof.
  generalize damage_recommendations as table.
  induction table as [|[k r] rest IH]; simpl; [discriminate |].
  destruct (str_in (lower k) (lower damage)).
  - intros [= ->]. left.
  - intros H. right. now apply IH.
Qed.

Lemma _generate_specific_recommendations_eq d score damages :
  _generate_specific_recommendations d score damages
  = list_to_set
      (if (score <? 60)%Z then URGENT :: hints_and_repairs d damages
       else if (score <? 80)%Z then PREVENTIVE :: hints_and_repairs d damages
       else hints_and_repairs d damages).
Proof. reflexivity. Qed.

Lemma directives_not_hints d damages :
  (URGENT ∉ hints_and_repairs d damages)
  /\ (PREVENTIVE ∉ hints_and_repairs d damages).
Proof.
  unfold hints_and_repairs. cbv zeta.
  split; intros H; apply elem_of_damage_loop in H as [H | (dm & _ & Hrec)];
    try (apply recommendation_of_table in Hrec;
         apply list_elem_of_In in Hrec; vm_compute in Hrec;
         repeat (destruct Hrec as [Hrec | Hrec]; [discriminate Hrec |]);
         exact Hrec);
    repeat match type of H with
           | context [if ?b then _ else _] => destruct b
           end;
    apply list_elem_of_In in H; vm_compute in H;
    repeat (destruct H as [H | H]; [discriminate H |]); exact H.
Qed.

(** X6. The urgent inspection directive is among the recommendations
    exactly when the score is below 60, and the 30-day preventive
    directive exactly when the score is from 60 to 79; the two never
    occur together. *)
Theorem directive_follows_score
    (d : EquipmentData) (score : Z) (damages : list string) :
  let recs := _generate_specific_recommendations d score damages in
  (URGENT ∈ recs <-> score < 60)
  /\ (PREVENTIVE ∈ recs <-> 60 <= score < 80)
  /\ ~ (URGENT ∈ recs /\ PREVENTIVE ∈ recs).
Proof.
  cbv zeta. rewrite _generate_specific_recommendations_eq.
  destruct (directives_not_hints d damages) as [Hu Hp].
  assert (URGENT <> PREVENTIVE) as Hne by discriminate.
  destruct (Z.ltb_spec score 60); [| destruct (Z.ltb_spec score 80)];
    rewrite !elem_of_list_to_set, ?elem_of_cons;
    repeat split; try lia; try tauto; intros; try lia;
    intuition (try congruence; try lia).
Qed.

(** X7. The recommendations depend on the damage list only through the
    set of its labels: two lists with the same labels, in whatever order
    and however often repeated, give the same recommendations. *)
Theorem recommendations_depend_on_label_set
    (d : EquipmentData) (score : Z) (damages1 damages2 : list string) :
  (forall label, label ∈ damages1 <-> label ∈ damages2) ->
  _generate_specific_recommendations d score damages1
  = _generate_specific_recommendations d score damages2.
Proof.
  intros Hsame. rewrite !_generate_specific_recommendations_eq.
  assert (forall x, x ∈ hints_and_repairs d damages1
                    <-> x ∈ hints_and_repairs d damages2) as Hh.
  { intros x. unfold hints_and_repairs. cbv zeta.
    rewrite !elem_of_damage_loop.
    split; (intros [H | (dm & Hin & Hrec)];
            [now left | right; exists dm; split; [now apply Hsame | exact Hrec]]). }
  apply set_eq. intros x.
  destruct (score <? 60)%Z; [| destruct (score <? 80)%Z];
    rewrite !elem_of_list_to_set, ?elem_of_cons, ?Hh; reflexivity.
Qed.

Lemma recommendations_depend_on_label_set_witness :
  _generate_specific_recommendations unknown_record 70
    ["rust"; "loose wires"; "rust"]
  = _generate_specific_recommendations unknown_record 70
      ["loose wires"; "rust"].
Proof.
  apply (recommendations_depend_on_label_set unknown_record 70).
  intros label. rewrite !elem_of_cons, !elem_of_nil. tauto.
Defined.

(** * Further properties of the fallback parser *)

Lemma scan_manufacturers_cases ms line d :
  scan_manufacturers ms line d = d
  \/ exists m, scan_manufacturers ms line d = set_manufacturer (Some (title m)) d
               /\ field_truthy (manufacturer d) = false.
Proof.
  induction ms as [|m ms IH]; simpl; [now left |].
  destruct (str_in m line); simpl; [| exact IH].
  destruct (field_truthy (manufacturer d)) eqn:Ht; simpl; [exact IH |].
  right. now exists m.
Qed.

Lemma scan_patterns_cases ps line is_set assign d :
  scan_patterns ps line is_set assign d = d
  \/ exists g, scan_patterns ps line is_set assign d = assign g d
               /\ is_set d = false.
Proof.
  induction ps as [|p ps IH]; simpl; [now left |].
  destruct (search p line) as [g|]; [| exact IH].
  destruct (is_set d) eqn:Hs; simpl; [exact IH |].
  right. now exists g.
Qed.

Lemma process_line_untouched line d :
  untouched_by_scan (process_line line d) = untouched_by_scan d.
Proof.
  unfold process_line. cbv zeta.
  repeat match goal with
         | |- context [scan_patterns ?ps ?l ?i ?a ?x] =>
             let H := fresh in
             destruct (scan_patterns_cases ps l i a x) as [H | (? & H & _)];
             rewrite H; clear H
         end;
    destruct (scan_manufacturers_cases manufacturers (upper line) d)
      as [H | (? & H & _)]; rewrite H; reflexivity.
Qed.

Lemma fold_process_line_untouched lines d :
  untouched_by_scan (fold_left (fun d line => process_line line d) lines d)
  = untouched_by_scan d.
Proof.
  revert d. induction lines as [|l ls IH]; intros d; simpl; [reflexivity |].
  rewrite IH. apply process_line_untouched.
Qed.

(** X8. A field found on an earlier line is never overwritten by a later
    one: scanning further lines keeps a non-empty manufacturer, model
    number and serial number, and a voltage once it is set. *)
Theorem first_match_is_kept (lines : list string) (d : EquipmentData) :
  let d' := fold_left (fun d line => process_line line d) lines d in
  (field_truthy (manufacturer d) = true -> manufacturer d' = manufacturer d)
  /\ (field_truthy (model_number d) = true -> model_number d' = model_number d)
  /\ (field_truthy (serial_number d) = true ->
      serial_number d' = serial_number d)
  /\ (has_voltage d = true ->
      specs_of d' !! "voltage" = specs_of d !! "voltage").
Proof.
  cbv zeta. revert d. induction lines as [|l ls IH]; intros d; simpl.
  - repeat split; reflexivity.
  - assert (
      (field_truthy (manufacturer d) = true ->
         manufacturer (process_line l d) = manufacturer d)
      /\ (field_truthy (model_number d) = true ->
         model_number (process_line l d) = model_number d)
      /\ (field_truthy (serial_number d) = true ->
         serial_number (process_line l d) = serial_number d)
      /\ (has_voltage d = true ->
         specifications (process_line l d) = specifications d)) as Hstep.
    { unfold process_line. cbv zeta.
      pose proof (scan_manufacturers_cases manufacturers (upper l) d) as C0.
      set (d0 := scan_manufacturers manufacturers (upper l) d) in *.
      pose proof (scan_patterns_cases model_patterns (upper l)
                    (fun d => field_truthy (model_number d))
                    set_model_number d0) as C1.
      set (d1 := scan_patterns model_patterns (upper l) _ _ d0) in *.
      pose proof (scan_patterns_cases serial_patterns (upper l)
                    (fun d => field_truthy (serial_number d))
                    set_serial_number d1) as C2.
      set (d2 := scan_patterns serial_patterns (upper l) _ _ d1) in *.
      pose proof (scan_patterns_cases voltage_patterns (upper l)
                    has_voltage assign_voltage d2) as C3.
      set (d3 := scan_patterns voltage_patterns (upper l) _ _ d2) in *.
      clearbody d0 d1 d2 d3.
      destruct C0 as [E0 | (m & E0 & T0)]; subst d0;
        (destruct C1 as [E1 | (g1 & E1 & T1)]; subst d1);
        (destruct C2 as [E2 | (g2 & E2 & T2)]; subst d2);
        (destruct C3 as [E3 | (g3 & E3 & T3)]; subst d3);
        repeat split; intros Ht; try reflexivity;
        unfold has_voltage, specs_of in *; simpl in *; congruence. }
    destruct Hstep as (H1 & H2 & H3 & H4).
    destruct (IH (process_line l d)) as (I1 & I2 & I3 & I4).
    repeat split; intros Ht.
    + rewrite I1; rewrite H1; auto.
    + rewrite I2; rewrite H2; auto.
    + rewrite I3; rewrite H3; auto.
    + rewrite I4.
      * unfold specs_of. now rewrite H4.
      * unfold has_voltage, specs_of in *. now rewrite H4.
Qed.

Lemma first_match_is_kept_witness :
  let d := basic_parse_equipment "SIEMENS MODEL: A-1 SN: 77 24V" in
  let d' := fold_left (fun d line => process_line line d)
                      ["ABB MODEL: B-2 SN: 88 12V"] d in
  manufacturer d' = Some "Siemens"
  /\ model_number d' = Some "A-1"
  /\ serial_number d' = Some "77"
  /\ specs_of d' !! "voltage" = Some "24V".
Proof.
  cbv zeta.
  destruct (first_match_is_kept ["ABB MODEL: B-2 SN: 88 12V"]
              (basic_parse_equipment "SIEMENS MODEL: A-1 SN: 77 24V"))
    as (H1 & H2 & H3 & H4).
  rewrite H1, H2, H3, H4 by (vm_compute; reflexivity).
  repeat split; vm_compute; reflexivity.
Defined.

Lemma basic_parse_equipment_untouched ocr_text :
  equipment_type (basic_parse_equipment ocr_text) = Some "Unknown"
  /\ detected_damages (basic_parse_equipment ocr_text) = Some []
  /\ extracted_text (basic_parse_equipment ocr_text) = Some ocr_text
  /\ estimated_age (basic_parse_equipment ocr_text) = None.
Proof.
  unfold basic_parse_equipment. cbv zeta.
  match goal with
  | |- context [fold_left ?f ?ls ?d0] =>
      pose proof (fold_process_line_untouched ls d0) as Hu;
      set (d1 := fold_left f ls d0) in *; clearbody d1
  end.
  unfold untouched_by_scan in Hu. simpl in Hu.
  injection Hu as He Hc Ho Hd Hx Hf Ha.
  repeat match goal with |- context [if ?b then _ else _] => destruct b end;
    simpl; auto.
Qed.

Lemma basic_parse_equipment_adjustment ocr_text :
  adjustment (basic_parse_equipment ocr_text)
  = if bucket_new ocr_text then 0
    else if bucket_used ocr_text then 25
    else if bucket_damaged ocr_text then 50
    else 0.
Proof.
  destruct (basic_parse_equipment_untouched ocr_text) as (_ & _ & _ & Ha).
  unfold adjustment. rewrite Ha. clear Ha.
  unfold bucket_new, bucket_used, bucket_damaged, basic_parse_equipment.
  cbv zeta.
  match goal with
  | |- context [fold_left ?f ?ls ?d0] =>
      pose proof (fold_process_line_untouched ls d0) as Hu;
      set (d1 := fold_left f ls d0) in *; clearbody d1
  end.
  unfold untouched_by_scan in Hu. simpl in Hu.
  injection Hu as He Hc Ho Hd Hx Hf Ha.
  repeat match goal with
         | |- context [if any_in ?ws ?t then _ else _] => destruct (any_in ws t)
         end;
    try (cbn [set_assessment condition operational_status];
         vm_compute; reflexivity).
  destruct (str_in "voltage" (lower ocr_text)
            || str_in "current" (lower ocr_text)
            || str_in "power" (lower ocr_text)).
  - cbn [set_assessment condition operational_status]. vm_compute. reflexivity.
  - rewrite Hc, Ho. vm_compute. reflexivity.
Qed.

(** X9. The score of a record produced by the fallback parser is fixed
    by the keyword bucket of the OCR text: 100 minus the damage
    penalties when the text looks new or triggers no bucket or only the
    specification one, 75 minus them when it mentions use or service,
    50 minus them when it mentions rust, corrosion or breakage; the
    result is clamped to [0,100]. *)
Theorem fallback_record_score (ocr_text : string) (damages : list string) :
  let score := calculate_health_score (basic_parse_equipment ocr_text) damages in
  let penalty := total_penalty HEALTH_PENALTIES damages in
  (bucket_new ocr_text = true -> score = Z.max 0 (100 - penalty))
  /\ (bucket_new ocr_text = false -> bucket_used ocr_text = true ->
      score = Z.max 0 (75 - penalty))
  /\ (bucket_new ocr_text = false -> bucket_used ocr_text = false ->
      bucket_damaged ocr_text = true -> score = Z.max 0 (50 - penalty))
  /\ (bucket_new ocr_text = false -> bucket_used ocr_text = false ->
      bucket_damaged ocr_text = false -> score = Z.max 0 (100 - penalty)).
Proof.
  cbv zeta. rewrite calculate_health_score_eq, basic_parse_equipment_adjustment.
  pose proof (total_penalty_nonneg HEALTH_PENALTIES damages
                HEALTH_PENALTIES_in_range).
  repeat split; intros; repeat match goal with H : _ = _ |- _ => rewrite H end;
    lia.
Qed.

Lemma fallback_record_score_witness :
  calculate_health_score (basic_parse_equipment "brand new unit") ["rust"] = 85
  /\ calculate_health_score (basic_parse_equipment "last service 2019") ["rust"]
     = 60
  /\ calculate_health_score (basic_parse_equipment "casing broken") ["rust"] = 35
  /\ calculate_health_score (basic_parse_equipment "220V") ["rust"] = 85.
Proof.
  split; [| split; [| split]].
  - destruct (fallback_record_score "brand new unit" ["rust"]) as (H & _).
    rewrite H by (vm_compute; reflexivity). vm_compute. reflexivity.
  - destruct (fallback_record_score "last service 2019" ["rust"])
      as (_ & H & _).
    rewrite H by (vm_compute; reflexivity). vm_compute. reflexivity.
  - destruct (fallback_record_score "casing broken" ["rust"])
      as (_ & _ & H & _).
    rewrite H by (vm_compute; reflexivity). vm_compute. reflexivity.
  - destruct (fallback_record_score "220V" ["rust"]) as (_ & _ & _ & H).
    rewrite H by (vm_compute; reflexivity). vm_compute. reflexivity.
Defined.

(** X10. Whatever category the caller passes, a record that comes from
    the fallback path carries the equipment type "Unknown", the OCR text
    verbatim and no age; so with no damage its recommendations hold no
    category hint, only the directive the score calls for. *)
Theorem fallback_discards_category
    (json_loads : string -> option EquipmentData)
    (ocr_text category : string) (damages : list string) (score : Z) :
  let d := parse_equipment_data json_loads None ocr_text category damages in
  equipment_type d = Some "Unknown"
  /\ extracted_text d = Some ocr_text
  /\ estimated_age d = None
  /\ _generate_specific_recommendations d score []
     = list_to_set (if (score <? 60)%Z then [URGENT]
                    else if (score <? 80)%Z then [PREVENTIVE] else []).
Proof.
  cbv zeta. unfold parse_equipment_data.
  destruct (basic_parse_equipment_untouched ocr_text) as (He & _ & Hx & Ha).
  repeat split; try assumption.
  rewrite _generate_specific_recommendations_eq.
  unfold hints_and_repairs. rewrite He. reflexivity.
Qed.

(** * The brace scan of parse_equipment_data *)







(** * Further properties of the classifier and of the compliance scan *)

Lemma classify_equipment_type_category c :
  c ∈ EQUIPMENT_CATEGORIES -> classify_equipment_type (Some c) = c.
Proof.
  intros Hin. apply list_elem_of_In in Hin. simpl in Hin.
  repeat (destruct Hin as [<- | Hin]; [vm_compute; reflexivity |]).
  contradiction.
Qed.

(** X12. Classification is idempotent: feeding a result of
    [classify_equipment_type] back as the model's answer returns it
    unchanged. *)
Theorem classify_equipment_type_idempotent (response : option string) :
  classify_equipment_type (Some (classify_equipment_type response))
  = classify_equipment_type response.
Proof.
  apply classify_equipment_type_category.
  apply (classify_equipment_type_coerces response).
Qed.


(** * The age estimator *)

Lemma hint_found_any_in indicators ocr_upper :
  hint_found indicators ocr_upper = any_in indicators ocr_upper.
Proof.
  unfold any_in. induction indicators as [|i rest IH]; simpl; [reflexivity |].
  destruct (str_in i ocr_upper); [reflexivity | exact IH].
Qed.

Lemma filter_present_nonempty words text :
  any_in words text = true ->
  List.filter (fun item => str_in item text) words <> [].
Proof.
  unfold any_in. induction words as [|w ws IH]; simpl; [discriminate |].
  destruct (str_in w text); [discriminate | exact IH].
Qed.

Lemma detect_equipment_age_cases image_path ocr_text :
  let u := upper ocr_text in
  detect_equipment_age image_path ocr_text
  = if any_in MODERN u then
      Age.mk "Modern (< 5 years)" "medium"
             (List.filter (fun item => str_in item u) MODERN)
    else if any_in MID_AGE u then
      Age.mk "Intermediate (5-15 years)" "low"
             (List.filter (fun item => str_in item u) MID_AGE)
    else if any_in OLDER u then
      Age.mk "Old (> 15 years)" "medium"
             (List.filter (fun item => str_in item u) OLDER)
    else Age.mk "Unknown" "none" [].
Proof.
  cbv zeta. unfold detect_equipment_age, collect_age_hints, age_indicators.
  cbv zeta. cbn [fold_left fst snd].
  rewrite !hint_found_any_in. fold MODERN MID_AGE OLDER.
  destruct (any_in MODERN (upper ocr_text)),
    (any_in MID_AGE (upper ocr_text)), (any_in OLDER (upper ocr_text));
    reflexivity.
Qed.

(** X14. The age buckets are tried in the order modern, intermediate,
    old: a text with any modern indicator is rated
    "Modern (< 5 years)" even when it also shows indicators of the other
    buckets (such as "LED" next to "VACUUM TUBE"), and an intermediate
    indicator wins over an old one. *)
Theorem age_bucket_priority (image_path ocr_text : string) :
  let u := upper ocr_text in
  let r := detect_equipment_age image_path ocr_text in
  (any_in MODERN u = true ->
     Age.estimated_age r = "Modern (< 5 years)" /\ Age.confidence r = "medium")
  /\ (any_in MODERN u = false -> any_in MID_AGE u = true ->
     Age.estimated_age r = "Intermediate (5-15 years)"
     /\ Age.confidence r = "low")
  /\ (any_in MODERN u = false -> any_in MID_AGE u = false ->
      any_in OLDER u = true ->
     Age.estimated_age r = "Old (> 15 years)" /\ Age.confidence r = "medium")
  /\ (any_in MODERN u = false -> any_in MID_AGE u = false ->
      any_in OLDER u = false ->
     Age.estimated_age r = "Unknown" /\ Age.confidence r = "none").
Proof.
  cbv zeta. rewrite detect_equipment_age_cases. cbv zeta.
  repeat split; intros;
    repeat match goal with H : any_in _ _ = _ |- _ => rewrite H; clear H end;
    reflexivity.
Qed.

Lemma age_bucket_priority_witness :
  Age.estimated_age (detect_equipment_age "" "Led panel, vacuum tube stage")
  = "Modern (< 5 years)"
  /\ Age.estimated_age (detect_equipment_age "" "analog meter, vacuum tube")
     = "Intermediate (5-15 years)"
  /\ Age.estimated_age (detect_equipment_age "" "vacuum tube stage")
     = "Old (> 15 years)"
  /\ Age.estimated_age (detect_equipment_age "" "nameplate") = "Unknown".
Proof.
  split; [| split; [| split]].
  - destruct (age_bucket_priority "" "Led panel, vacuum tube stage")
      as (H & _).
    apply H. vm_compute. reflexivity.
  - destruct (age_bucket_priority "" "analog meter, vacuum tube")
      as (_ & H & _).
    apply H; vm_compute; reflexivity.
  - destruct (age_bucket_priority "" "vacuum tube stage") as (_ & _ & H & _).
    apply H; vm_compute; reflexivity.
  - destruct (age_bucket_priority "" "nameplate") as (_ & _ & _ & H).
    apply H; vm_compute; reflexivity.
Defined.

(** X15. Every indicator the estimator reports occurs in the upper-cased
    text, and the indicator list is empty exactly when the age is
    "Unknown". *)
Theorem age_indicators_are_evidence (image_path ocr_text : string) :
  let r := detect_equipment_age image_path ocr_text in
  (forall item, In item (Age.indicators r) ->
                str_in item (upper ocr_text) = true)
  /\ (Age.indicators r = [] <-> Age.estimated_age r = "Unknown").
Proof.
  cbv zeta. rewrite detect_equipment_age_cases. cbv zeta.
  destruct (any_in MODERN (upper ocr_text)) eqn:H1;
    [| destruct (any_in MID_AGE (upper ocr_text)) eqn:H2;
       [| destruct (any_in OLDER (upper ocr_text)) eqn:H3]];
    cbn [Age.indicators Age.estimated_age];
    (split; [intros item Hin; try (apply filter_In in Hin; tauto);
             contradiction |]);
    try (split; [intros He; exfalso; revert He;
                 now apply filter_present_nonempty
                | discriminate]).
  split; reflexivity.
Qed.

(** * The service recommendations of data_parser.py *)

(** X16. In [generate_recommendations] the risk assessment and the
    maintenance schedule depend on the score alone: the "High" set for
    burn marks or overheating is always overwritten by the score tier
    (a score of 80 or more is "Low" whatever the damage). The exact
    labels "burn marks" and "overheating" only add two service actions
    in front of the one the tier adds. *)
Theorem service_risk_depends_on_score_only
    (d d' : EquipmentData) (score : Z) (damages damages' : list string) :
  let r := generate_recommendations d score damages in
  let r' := generate_recommendations d' score damages' in
  risk_assessment r = risk_assessment r'
  /\ maintenance_schedule r = maintenance_schedule r'
  /\ (80 <= score -> risk_assessment r = "Low")
  /\ (score < 30 -> risk_assessment r = "Critical")
  /\ List.length (service_actions r)
     = (if bool_decide ("burn marks" ∈ damages)
           || bool_decide ("overheating" ∈ damages) then 3 else 1)%nat.
Proof.
  cbv zeta. unfold generate_recommendations. cbv zeta.
  destruct (bool_decide ("burn marks" ∈ damages)
            || bool_decide ("overheating" ∈ damages));
    destruct (bool_decide ("burn marks" ∈ damages')
              || bool_decide ("overheating" ∈ damages'));
    destruct (Z.ltb_spec score 30); [| destruct (Z.ltb_spec score 60);
      [| destruct (Z.ltb_spec score 80)] | | destruct (Z.ltb_spec score 60);
      [| destruct (Z.ltb_spec score 80)] | | destruct (Z.ltb_spec score 60);
      [| destruct (Z.ltb_spec score 80)] | | destruct (Z.ltb_spec score 60);
      [| destruct (Z.ltb_spec score 80)]];
    cbn; repeat split; intros; try reflexivity; lia.
Qed.

Lemma service_risk_depends_on_score_only_witness :
  risk_assessment (generate_recommendations unknown_record 90 ["burn marks"])
  = "Low"
  /\ risk_assessment (generate_recommendations unknown_record 10 []) = "Critical".
Proof.
  split.
  - destruct (service_risk_depends_on_score_only unknown_record unknown_record
                90 ["burn marks"] []) as (_ & _ & H & _).
    apply H. lia.
  - destruct (service_risk_depends_on_score_only unknown_record unknown_record
                10 [] []) as (_ & _ & _ & H & _).
    apply H. lia.
Defined.

(** X17. The risk tier of the health report and the risk assessment of
    [generate_recommendations] use different thresholds: they name the
    same tier exactly for scores of 80 or more, from 30 to 39, and
    below 20. *)
Theorem risk_tiers_agree_iff
    (d : EquipmentData) (score : Z) (damages : list string) :
  risk_level (generate_health_report d score damages)
  = risk_assessment (generate_recommendations d score damages)
  <-> 80 <= score \/ 30 <= score < 40 \/ score < 20.
Proof.
  unfold generate_health_report, status_tier, generate_recommendations.
  cbv zeta. rewrite !Z.geb_leb.
  destruct (bool_decide ("burn marks" ∈ damages)
            || bool_decide ("overheating" ∈ damages));
    destruct (Z.leb_spec 80 score); [| destruct (Z.leb_spec 60 score);
      [| destruct (Z.leb_spec 40 score); [| destruct (Z.leb_spec 20 score)]]
      | | destruct (Z.leb_spec 60 score);
      [| destruct (Z.leb_spec 40 score); [| destruct (Z.leb_spec 20 score)]]];
    repeat match goal with
           | |- context [(?a <? ?b)%Z] => destruct (Z.ltb_spec a b); try lia
           end;
    cbn [risk_level risk_assessment];
    split; intros; try reflexivity; try discriminate; lia.
Qed.

(** * Comparison of several reports *)

Lemma insert_by_score_perm x l : Permutation (x :: l) (insert_by_score x l).
Proof.
  induction l as [|y l IH]; simpl; [reflexivity |].
  destruct (overall_health_score x <? overall_health_score y)%Z;
    [| reflexivity].
  rewrite perm_swap. now constructor.
Qed.

Lemma sorted_by_score_perm l : Permutation l (sorted_by_score l).
Proof.
  induction l as [|x l IH]; simpl; [reflexivity |].
  rewrite <- insert_by_score_perm. now constructor.
Qed.

Lemma insert_by_score_desc x l : desc l -> desc (insert_by_score x l).
Proof.
  induction 1 as [|y l Hy Hl IH]; simpl.
  - constructor; constructor.
  - destruct (Z.ltb_spec (overall_health_score x) (overall_health_score y)).
    + constructor; [| exact IH].
      rewrite <- (insert_by_score_perm x l). constructor; [lia | exact Hy].
    + constructor; [| now constructor].
      constructor; [lia |].
      eapply Forall_impl; [exact Hy |]. simpl. intros z Hz. lia.
Qed.

Lemma sorted_by_score_desc l : desc (sorted_by_score l).
Proof.
  induction l as [|x l IH]; simpl; [constructor |].
  now apply insert_by_score_desc.
Qed.

Lemma desc_by_score_desc l : desc l -> by_score_desc l.
Proof.
  induction 1 as [|x l Hx Hl IH]; intros i j a b Hij Ha Hb.
  - now rewrite lookup_nil in Ha.
  - destruct j as [|j]; [lia |]. simpl in Hb.
    destruct i as [|i]; simpl in Ha.
    + injection Ha as <-. rewrite Forall_forall in Hx. apply Hx.
      eapply list_elem_of_lookup_2. exact Hb.
    + apply (IH i j); [lia | exact Ha | exact Hb].
Qed.

Lemma insert_by_score_filter k x l :
  List.filter (fun y => (overall_health_score y =? k)%Z) (insert_by_score x l)
  = List.filter (fun y => (overall_health_score y =? k)%Z) (x :: l).
Proof.
  induction l as [|y l IH]; [reflexivity |].
  cbn [insert_by_score].
  destruct (Z.ltb_spec (overall_health_score x) (overall_health_score y));
    [| reflexivity].
  cbn [List.filter] in *. rewrite IH.
  destruct (Z.eqb_spec (overall_health_score x) k),
    (Z.eqb_spec (overall_health_score y) k); try reflexivity; lia.
Qed.

(** X18. The ranking returned by [compare_equipment_health] is a
    rearrangement of the given reports in order of descending score
    that keeps reports of equal score in their given order; the result
    is the empty dict only for the empty list. *)
Theorem ranking_is_stable_descending (equipment_list : list HealthReport) :
  match compare_equipment_health equipment_list with
  | None => equipment_list = []
  | Some c =>
      Permutation equipment_list (ranking c)
      /\ by_score_desc (ranking c)
      /\ forall k,
           List.filter (fun y => (overall_health_score y =? k)%Z) (ranking c)
           = List.filter (fun y => (overall_health_score y =? k)%Z)
                         equipment_list
  end.
Proof.
  destruct equipment_list as [|x l]; [reflexivity |].
  cbn [compare_equipment_health ranking].
  split; [apply sorted_by_score_perm | split].
  - apply desc_by_score_desc, sorted_by_score_desc.
  - intros k. generalize (x :: l) as l0.
    induction l0 as [|y l0 IH]; [reflexivity |].
    cbn [sorted_by_score fold_right].
    rewrite insert_by_score_filter. cbn [List.filter].
    fold (sorted_by_score l0). now rewrite IH.
Qed.

(** X19. The three counts of the comparison summary split the list:
    every report is counted as healthy (80 or more), needing attention
    (40 to 79) or critical (below 40), and as exactly one of them. *)
Theorem summary_counts_partition (equipment_list : list HealthReport) :
  match compare_equipment_health equipment_list with
  | None => equipment_list = []
  | Some c =>
      healthy_count (summary c) + needs_attention_count (summary c)
      + critical_count (summary c)
      = Z.of_nat (List.length equipment_list)
      /\ 0 <= healthy_count (summary c)
      /\ 0 <= needs_attention_count (summary c)
      /\ 0 <= critical_count (summary c)
  end.
Proof.
  destruct equipment_list as [|x l]; [reflexivity |].
  cbn [compare_equipment_health summary healthy_count needs_attention_count
       critical_count].
  unfold count_where. split; [| lia].
  generalize (x :: l) as l0. induction l0 as [|y l0 IH]; [reflexivity |].
  cbn [List.filter List.length]. rewrite Z.geb_leb.
  destruct (Z.leb_spec 80 (overall_health_score y)),
    (Z.leb_spec 40 (overall_health_score y)),
    (Z.ltb_spec (overall_health_score y) 80),
    (Z.ltb_spec (overall_health_score y) 40);
    try lia; cbn [andb List.length]; lia.
Qed.

(** * The array scan of detect_damage_and_faults *)




(** * The specification extractor *)

Lemma ReN_search_unfold r s :
  ReN.search r s
  = match ReN.rmatch r s ReN.no_captures (fun _ g => Some g) with
    | Some g => Some g
    | None =>
        match s with
        | EmptyString => None
        | String _ s' => ReN.search r s'
        end
    end.
Proof. destruct s; reflexivity. Qed.

(** A match at some position makes [search] succeed. *)
Lemma ReN_search_reaches r before s :
  is_Some (ReN.rmatch r s ReN.no_captures (fun _ g => Some g)) ->
  is_Some (ReN.search r (before ++ s)).
Proof.
  intros [g Hg]. induction before as [|c before IH].
  - rewrite append_nil_l, ReN_search_unfold, Hg. now eexists.
  - rewrite append_cons, ReN_search_unfold.
    destruct (ReN.rmatch r (String c (before ++ s)) _ _);
      [now eexists | exact IH].
Qed.

Lemma lower_char_w w : lower_char w = "w"%char -> w = "w"%char \/ w = "W"%char.
Proof.
  destruct w as [[] [] [] [] [] [] [] []]; vm_compute; intros H;
    try discriminate H; auto.
Qed.

Lemma number_then_w_matches tail alts d w after :
  is_digit d = true -> lower_char w = "w"%char ->
  is_Some (ReN.rmatch
             (ReN.Seq [spec_number; ReN.Star Re.cls_space;
                       ReN.Alt (ReN.Word "W") alts; ReN.Opt tail])
             (String d (String w after))
             ReN.no_captures (fun _ g => Some g)).
Proof.
  intros Hd Hw.
  assert (is_digit w = false /\ is_space w = false
          /\ Ascii.eqb (lower_char w) (lower_char ".") = false
          /\ Ascii.eqb (lower_char w) (lower_char "W") = true)
    as (W1 & W2 & W3 & W4).
  { destruct (lower_char_w w Hw) as [-> | ->]; repeat split. }
  unfold spec_number, ReN.Seq, ReN.Plus, ReN.Opt, ReN.Word,
    ReN.Lit, Re.cls_digit, Re.cls_space.
  cbn [ReN.rmatch Re.star]. rewrite Hd. cbn [ReN.rmatch Re.star].
  rewrite W1, W3. cbn [ReN.rmatch Re.star]. rewrite W2, W4.
  match goal with
  | |- context [ReN.rmatch tail ?s ?g ?k] => destruct (ReN.rmatch tail s g k)
  end; now eexists.
Qed.

Lemma power_pattern_matches d w after :
  is_digit d = true -> lower_char w = "w"%char ->
  is_Some (ReN.rmatch power_pattern (String d (String w after))
             ReN.no_captures (fun _ g => Some g)).
Proof. apply number_then_w_matches. Qed.

(** X21. [extract_additional_specs] raises on every text in which a
    digit is directly followed by the letter W, whatever else the text
    holds: the power pattern has one capturing group and the code asks
    for group 2. Hence a dict it does return never has a
    [power_rating]. *)
Theorem extract_additional_specs_raises_on_power :
  (forall before d w after,
     is_digit d = true -> lower_char w = "w"%char ->
     extract_additional_specs (before ++ String d (String w after)) = None)
  /\ (forall ocr_text specs,
        extract_additional_specs ocr_text = Some specs ->
        specs !! "power_rating" = None
        /\ ReN.search power_pattern ocr_text = None).
Proof.
  split.
  - intros before d w after Hd Hw.
    destruct (ReN_search_reaches power_pattern before _
                (power_pattern_matches d w after Hd Hw)) as [m Hm].
    unfold extract_additional_specs. cbv zeta. rewrite Hm.
    change (ReN.group power_pattern m 2) with (@None string).
    repeat match goal with
           | |- context [match ?x with Some _ => _ | None => _ end] =>
               destruct x
           end; reflexivity.
  - intros ocr_text specs. unfold extract_additional_specs. cbv zeta.
    destruct (ReN.search power_pattern ocr_text) as [m|].
    + change (ReN.group power_pattern m 2) with (@None string).
      repeat match goal with
             | |- context [match ?x with Some _ => _ | None => _ end] =>
                 destruct x
             end; discriminate.
    + destruct (ReN.search current_pattern ocr_text) as [m1|];
        destruct (ReN.search frequency_pattern ocr_text) as [m2|];
        destruct (ReN.search temperature_pattern ocr_text) as [m3|];
        cbn; intros [= <-]; split; try reflexivity;
        repeat (rewrite lookup_insert_ne by discriminate);
        apply lookup_empty.
Qed.

Lemma extract_additional_specs_raises_on_power_witness :
  extract_additional_specs "Rated 500W, 2A" = None.
Proof.
  destruct extract_additional_specs_raises_on_power as [H _].
  apply (H "Rated 50" "0"%char "W"%char ", 2A"); reflexivity.
Defined.

(** * The two classifiers *)

(** X22. The classifier of [app.py] never returns the empty string, and
    it returns the same category as [ai_classifier.py] whenever the
    latter does not fall back: the two differ only on answers that
    [ai_classifier.py] coerces to "Other Industrial Equipment". *)
Theorem classifiers_agree_unless_coerced (response : option string) :
  App.classify_equipment_type response <> ""
  /\ (classify_equipment_type response <> OTHER ->
      App.classify_equipment_type response = classify_equipment_type response).
Proof.
  unfold App.classify_equipment_type, classify_equipment_type.
  destruct response as [text|]; cbv zeta; [| split; [discriminate | tauto]].
  split.
  - destruct (hd "" (split_lines (strip text))) eqn:Hl; simpl; discriminate.
  - destruct (decide (hd "" (split_lines (strip text)) ∈ EQUIPMENT_CATEGORIES))
      as [Hin | Hnot]; [| tauto].
    intros _. destruct (hd "" (split_lines (strip text))) eqn:Hl;
      [| reflexivity].
    apply list_elem_of_In in Hin. simpl in Hin.
    repeat (destruct Hin as [Hin | Hin]; [discriminate Hin |]). contradiction.
Qed.

Lemma classifiers_agree_unless_coerced_witness :
  App.classify_equipment_type (Some " Battery Packs ")
  = classify_equipment_type (Some " Battery Packs ").
Proof.
  apply (classifiers_agree_unless_coerced (Some " Battery Packs ")).
  vm_compute. discriminate.
Defined.
